(** * AutoAttend: the face-recognition attendance engine

    A shallow embedding of the attendance-capture page
    (src/pages/AttendanceCapture.tsx) and of the enrolment form
    (StudentRegistration), with the properties of the engine stated
    over them.

    React state is a record; a handler is a function on the page's
    world (React state, refs, the attendance table, the callbacks
    waiting on a promise).  Every [await] is a point where a callback is
    parked in the world and resumed by an event. *)

From Stdlib Require Import List String Ascii Bool Arith ZArith Lia.
From Stdlib Require Import QArith Qabs.
From Stdlib Require Import DecimalString.
From Stdlib Require Import Permutation.
Import ListNotations.
Close Scope Q_scope.
Open Scope string_scope.
Open Scope list_scope.

Set Implicit Arguments.

(** ** Time

    Timestamps are microseconds since the epoch (the resolution of
    [timestamptz]); the browser and the database read one clock. *)

Definition usPerSecond : Z := 1000000.
Definition usPerDay : Z := 86400 * usPerSecond.

(** [new Date().toISOString().split('T')[0]], as a day number. *)
Definition isoDate (now : Z) : Z := (now / usPerDay)%Z.

(** [`${today}T00:00:00`] and [`${today}T23:59:59`]. *)
Definition startOfDay (today : Z) : Z := (today * usPerDay)%Z.
Definition lastSecondOfDay (today : Z) : Z :=
  (today * usPerDay + 86399 * usPerSecond)%Z.

(** ** Rows *)

Inductive Status := present | absent.

Definition Status_eqb (a b : Status) : bool :=
  match a, b with
  | present, present | absent, absent => true
  | _, _ => false
  end.

Module Student.
Record t := mk {
  id : string;
  name : string;
  student_id : string;
  course : string;
  photo_url : string }.
End Student.

Module Attendance.
(** A row of [public.attendance]; [student_id] references
    [students.id], [created_at] defaults to [now()]. *)
Record row := mk {
  student_id : string;
  course : string;
  status : Status;
  created_at : Z }.
End Attendance.

(** [Array.prototype.includes] on an array of strings. *)
Definition includes (l : list string) (x : string) : bool :=
  existsb (String.eqb x) l.

Definition isPresent (r : Attendance.row) : bool :=
  Status_eqb (Attendance.status r) present.

Definition isAbsent (r : Attendance.row) : bool :=
  Status_eqb (Attendance.status r) absent.

(** ** The query of fetchAttendanceRecords

    [.eq('course', c).gte('created_at', T00:00:00)
     .lte('created_at', T23:59:59).order('created_at', desc)] *)

Definition inWindow (courseName : string) (today : Z) (r : Attendance.row) : bool :=
  (Attendance.course r =? courseName)
  && (startOfDay today <=? Attendance.created_at r)%Z
  && (Attendance.created_at r <=? lastSecondOfDay today)%Z.

Fixpoint insertDesc (r : Attendance.row) (l : list Attendance.row) : list Attendance.row :=
  match l with
  | [] => [r]
  | x :: t =>
      if (Attendance.created_at x <=? Attendance.created_at r)%Z
      then r :: l
      else x :: insertDesc r t
  end.

Definition orderDesc (l : list Attendance.row) : list Attendance.row :=
  fold_right insertDesc [] l.

Definition queryAttendance (table : list Attendance.row)
    (courseName : string) (today : Z) : list Attendance.row :=
  orderDesc (filter (inWindow courseName today) table).

(** Student ids of the present rows of a query result. *)
Definition presentIds (data : list Attendance.row) : list string :=
  map Attendance.student_id (filter isPresent data).

(** ** Face descriptors

    A descriptor is face-api's [Float32Array]; its numbers are taken as
    rationals. *)

Definition Descriptor := list Q.

Record LabeledFaceDescriptors := mkLabeled {
  label : string;
  descriptors : list Descriptor }.

(** What processing one reference photo gives (lines 204-225). *)
Inductive PhotoOutcome :=
| FaceFound (d : Descriptor)
| NoFace
| PhotoError.

(** Outcomes of the calls on the database client. *)
Inductive InsertOutcome :=
| Inserted
| InsertRefused (message : string)
| InsertThrew (message : string).

Inductive QueryOutcome :=
| QueryOk
| QueryError (message : string).

Module AttendanceCapture.

(** ** React state of the page

    The state the handlers below read or write; [courses] and
    [isModelLoading] only feed the rendering and are left out. *)

Record State := mkState {
  course : string;
  students : list Student.t;
  recognizedStudents : list string;
  attendanceRecords : list Attendance.row;
  isWebcamActive : bool;
  isModelLoaded : bool;
  isCapturing : bool;
  isSubmitting : bool;
  error : option string;
  successMessage : option string }.

Definition setCourse (v : string) (s : State) : State :=
  mkState v (students s) (recognizedStudents s) (attendanceRecords s)
    (isWebcamActive s) (isModelLoaded s) (isCapturing s) (isSubmitting s)
    (error s) (successMessage s).

Definition setStudents (v : list Student.t) (s : State) : State :=
  mkState (course s) v (recognizedStudents s) (attendanceRecords s)
    (isWebcamActive s) (isModelLoaded s) (isCapturing s) (isSubmitting s)
    (error s) (successMessage s).

(** The setter takes an updater, as [setRecognizedStudents(prev => ...)]. *)
Definition setRecognizedStudents (f : list string -> list string) (s : State) : State :=
  mkState (course s) (students s) (f (recognizedStudents s)) (attendanceRecords s)
    (isWebcamActive s) (isModelLoaded s) (isCapturing s) (isSubmitting s)
    (error s) (successMessage s).

Definition setAttendanceRecords (v : list Attendance.row) (s : State) : State :=
  mkState (course s) (students s) (recognizedStudents s) v
    (isWebcamActive s) (isModelLoaded s) (isCapturing s) (isSubmitting s)
    (error s) (successMessage s).

Definition setIsWebcamActive (v : bool) (s : State) : State :=
  mkState (course s) (students s) (recognizedStudents s) (attendanceRecords s)
    v (isModelLoaded s) (isCapturing s) (isSubmitting s)
    (error s) (successMessage s).

Definition setIsModelLoaded (v : bool) (s : State) : State :=
  mkState (course s) (students s) (recognizedStudents s) (attendanceRecords s)
    (isWebcamActive s) v (isCapturing s) (isSubmitting s)
    (error s) (successMessage s).

Definition setIsCapturing (v : bool) (s : State) : State :=
  mkState (course s) (students s) (recognizedStudents s) (attendanceRecords s)
    (isWebcamActive s) (isModelLoaded s) v (isSubmitting s)
    (error s) (successMessage s).

Definition setIsSubmitting (v : bool) (s : State) : State :=
  mkState (course s) (students s) (recognizedStudents s) (attendanceRecords s)
    (isWebcamActive s) (isModelLoaded s) (isCapturing s) v
    (error s) (successMessage s).

Definition setError (v : option string) (s : State) : State :=
  mkState (course s) (students s) (recognizedStudents s) (attendanceRecords s)
    (isWebcamActive s) (isModelLoaded s) (isCapturing s) (isSubmitting s)
    v (successMessage s).

Definition setSuccessMessage (v : option string) (s : State) : State :=
  mkState (course s) (students s) (recognizedStudents s) (attendanceRecords s)
    (isWebcamActive s) (isModelLoaded s) (isCapturing s) (isSubmitting s)
    (error s) v.

(** ** The interval callback

    The arrow function handed to [window.setInterval] (lines 242-306) is
    created once per call of startFaceRecognition.  It reads the
    bindings [recognizedStudents], [course], [students] of the render in
    which startFaceRecognition was created, and the [faceMatcher] built
    by that call: these are the fields of [Closure]. *)

Record Closure := mkClosure {
  c_recognizedStudents : list string;
  c_course : string;
  c_students : list Student.t;
  c_faceMatcher : list LabeledFaceDescriptors }.

(** Where a run of the callback is parked: at
    [await faceapi.detectAllFaces(video)...] (line 257), or at
    [await supabase.from('attendance').insert(...)] (line 292) for one
    detection, with the detections the [for] loop has still to visit. *)
Inductive Await :=
| AwaitDetect
| AwaitInsert (studentId : string) (rest : list string).

Record Tick := mkTick {
  scope : Closure;
  parked : Await }.

(** ** The world of the page *)

Record World := mkWorld {
  ui : State;
  attendance : list Attendance.row;   (* table public.attendance *)
  clock : Z;
  mounted : bool;                     (* videoRef.current && canvasRef.current *)
  srcObject : bool;                   (* the video element holds a stream *)
  intervalRef : option nat;
  timers : list (nat * Closure);      (* callbacks registered by setInterval *)
  nextHandle : nat;
  ticks : list Tick;                  (* runs of the callback parked at an await *)
  fetches : list (string * Z);        (* fetchAttendanceRecords awaiting its query *)
  console : list string }.

Definition withUi (f : State -> State) (w : World) : World :=
  mkWorld (f (ui w)) (attendance w) (clock w) (mounted w) (srcObject w)
    (intervalRef w) (timers w) (nextHandle w) (ticks w) (fetches w) (console w).

Definition withAttendance (v : list Attendance.row) (w : World) : World :=
  mkWorld (ui w) v (clock w) (mounted w) (srcObject w)
    (intervalRef w) (timers w) (nextHandle w) (ticks w) (fetches w) (console w).

Definition withClock (v : Z) (w : World) : World :=
  mkWorld (ui w) (attendance w) v (mounted w) (srcObject w)
    (intervalRef w) (timers w) (nextHandle w) (ticks w) (fetches w) (console w).

Definition withSrcObject (v : bool) (w : World) : World :=
  mkWorld (ui w) (attendance w) (clock w) (mounted w) v
    (intervalRef w) (timers w) (nextHandle w) (ticks w) (fetches w) (console w).

Definition withInterval (r : option nat) (ts : list (nat * Closure)) (n : nat)
    (w : World) : World :=
  mkWorld (ui w) (attendance w) (clock w) (mounted w) (srcObject w)
    r ts n (ticks w) (fetches w) (console w).

Definition withTicks (v : list Tick) (w : World) : World :=
  mkWorld (ui w) (attendance w) (clock w) (mounted w) (srcObject w)
    (intervalRef w) (timers w) (nextHandle w) v (fetches w) (console w).

Definition withFetches (v : list (string * Z)) (w : World) : World :=
  mkWorld (ui w) (attendance w) (clock w) (mounted w) (srcObject w)
    (intervalRef w) (timers w) (nextHandle w) (ticks w) v (console w).

Definition log (line : string) (w : World) : World :=
  mkWorld (ui w) (attendance w) (clock w) (mounted w) (srcObject w)
    (intervalRef w) (timers w) (nextHandle w) (ticks w) (fetches w)
    (console w ++ [line]).

(** ** Helpers on arrays *)

Fixpoint removeAt {A} (k : nat) (l : list A) : list A :=
  match l, k with
  | [], _ => []
  | _ :: t, O => t
  | x :: t, S k' => x :: removeAt k' t
  end.

Fixpoint replaceAt {A} (k : nat) (v : A) (l : list A) : list A :=
  match l, k with
  | [], _ => []
  | _ :: t, O => v :: t
  | x :: t, S k' => x :: replaceAt k' v t
  end.

(** [arr.filter(x => x !== null)] *)
Fixpoint nonNull {A} (l : list (option A)) : list A :=
  match l with
  | [] => []
  | Some x :: t => x :: nonNull t
  | None :: t => nonNull t
  end.

Fixpoint lookupTimer (h : nat) (ts : list (nat * Closure)) : option Closure :=
  match ts with
  | [] => None
  | (h', c) :: t => if (h' =? h)%nat then Some c else lookupTimer h t
  end.

(** ** fetchAttendanceRecords (lines 101-128)

    The call reads the date and sends the query; it is parked until the
    query resolves.  No caller awaits it. *)

Definition fetchAttendanceRecords (courseName : string) (w : World) : World :=
  withFetches (fetches w ++ [(courseName, isoDate (clock w))]) w.

Definition fetchResolved (j : nat) (r : QueryOutcome) (w : World) : World :=
  match nth_error (fetches w) j with
  | None => w
  | Some (courseName, today) =>
      let w0 := withFetches (removeAt j (fetches w)) w in
      match r with
      | QueryOk =>
          let data := queryAttendance (attendance w0) courseName today in
          withUi (fun s =>
                    setRecognizedStudents (fun _ => presentIds data)
                      (setAttendanceRecords data s)) w0
      | QueryError m => log ("Error fetching attendance records: " ++ m)%string w0
      end
  end.

(** ** The useEffect on [course] (lines 55-60) *)

Inductive StudentsOutcome :=
| StudentsOk (data : list Student.t)
| StudentsError (message : string).

Definition fetchStudentsByCourse (r : StudentsOutcome) (w : World) : World :=
  match r with
  | StudentsOk data => withUi (setStudents data) w
  | StudentsError m =>
      withUi (setError (Some "Failed to load students for the selected course"))
        (log ("Error fetching students: " ++ m)%string w)
  end.

Definition selectCourse (courseName : string) (roster : StudentsOutcome)
    (w : World) : World :=
  let w1 := withUi (setCourse courseName) w in
  if courseName =? "" then w1
  else fetchAttendanceRecords courseName (fetchStudentsByCourse roster w1).

(** ** startWebcam, stopWebcam (lines 130-191) *)

Definition loadFaceRecognitionModels (ok : bool) (w : World) : World :=
  let w1 := withUi (setError None) w in
  if ok then withUi (setIsModelLoaded true) w1
  else withUi (setError (Some "Failed to load face recognition models. Please try again."))
         (log "Error loading face recognition models:" w1).

Definition startWebcam (models camera : bool) (w : World) : World :=
  let w1 := withUi (setError None) w in
  let w2 := if isModelLoaded (ui w) then w1 else loadFaceRecognitionModels models w1 in
  if camera
  then withUi (setIsWebcamActive true)
         (if mounted w2 then withSrcObject true w2 else w2)
  else withUi (setError (Some "Failed to access webcam. Please check your camera permissions."))
         (log "Error starting webcam:" w2).

Definition clearInterval (w : World) : World :=
  match intervalRef w with
  | Some h =>
      withInterval None
        (filter (fun t => negb (fst t =? h)%nat) (timers w)) (nextHandle w) w
  | None => w
  end.

Definition stopWebcam (w : World) : World :=
  let w1 := if mounted w && srcObject w then withSrcObject false w else w in
  withUi (fun s => setIsCapturing false (setIsWebcamActive false s))
    (clearInterval w1).

Definition stopFaceRecognition (w : World) : World :=
  withUi (setIsCapturing false) (clearInterval w).

(** ** startFaceRecognition (lines 193-307) *)

(** One reference photo (the body of [students.map], lines 203-226). *)
Definition describe (photo : Student.t -> PhotoOutcome) (student : Student.t)
    : option LabeledFaceDescriptors :=
  match photo student with
  | FaceFound d => Some (mkLabeled (Student.id student) [d])
  | NoFace => None
  | PhotoError => None
  end.

(** What that body writes to the console. *)
Definition complaint (photo : Student.t -> PhotoOutcome) (student : Student.t)
    : option string :=
  match photo student with
  | FaceFound _ => None
  | NoFace =>
      Some ("No face detected in the reference image for " ++ Student.name student)%string
  | PhotoError =>
      Some ("Error processing reference image for " ++ Student.name student ++ ":")%string
  end.

Definition validDescriptors (photo : Student.t -> PhotoOutcome)
    (roster : list Student.t) : list LabeledFaceDescriptors :=
  nonNull (map (describe photo) roster).

Definition startFaceRecognition (photo : Student.t -> PhotoOutcome)
    (w : World) : World :=
  if negb (isWebcamActive (ui w)) || negb (mounted w)
     || (List.length (students (ui w)) =? 0)%nat
  then w
  else
    let w1 := withUi (fun s => setError None (setIsCapturing true s)) w in
    let w2 := fold_left (fun acc line => log line acc)
                (nonNull (map (complaint photo) (students (ui w)))) w1 in
    let valid := validDescriptors photo (students (ui w)) in
    if (List.length valid =? 0)%nat
    then withUi (fun s =>
                   setIsCapturing false
                     (setError (Some "Could not create face descriptors from student photos. Please check the photos.") s))
           w2
    else
      let h := nextHandle w2 in
      withInterval (Some h)
        (timers w2 ++
           [(h, mkClosure (recognizedStudents (ui w)) (course (ui w))
                  (students (ui w)) valid)])
        (S h) w2.

(** ** One run of the interval callback (lines 242-306)

    The [for] loop over the labels the matcher gave to the detections
    of the frame, from a given detection on, up to the next
    [await ... insert] (the run parks, with the student it inserts and
    the detections left) or to the end of the loop.  The test of line
    287 reads [recognizedStudents] of the closure.  Drawing on the
    canvas is left out. *)
Fixpoint forLoop (c : Closure) (labels : list string) (w : World)
    : World * option (string * list string) :=
  match labels with
  | [] => (w, None)
  | studentId :: rest =>
      if negb (studentId =? "unknown")
         && negb (includes (c_recognizedStudents c) studentId)
      then (withUi (setRecognizedStudents (fun prev => prev ++ [studentId])) w,
            Some (studentId, rest))
      else forLoop c rest w
  end.

Definition settle (k : nat) (c : Closure)
    (r : World * option (string * list string)) : World :=
  match r with
  | (w, None) => withTicks (removeAt k (ticks w)) w
  | (w, Some (studentId, rest)) =>
      withTicks (replaceAt k (mkTick c (AwaitInsert studentId rest)) (ticks w)) w
  end.

(** The timer [h] elapses: the callback starts; it returns at once
    without the refs or when the video is paused, ended or has no
    width, and otherwise parks at [detectAllFaces]. *)
Definition timerFired (h : nat) (videoReady : bool) (w : World) : World :=
  match lookupTimer h (timers w) with
  | None => w
  | Some c =>
      if mounted w && videoReady
      then withTicks (ticks w ++ [mkTick c AwaitDetect]) w
      else w
  end.

(** [detectAllFaces] resolves with the labels of the detections in the
    frame ([None]: the promise rejects and the run ends). *)
Definition detectResolved (k : nat) (r : option (list string)) (w : World) : World :=
  match nth_error (ticks w) k with
  | Some (mkTick c AwaitDetect) =>
      match r with
      | None => withTicks (removeAt k (ticks w)) w
      | Some labels => settle k c (forLoop c labels w)
      end
  | _ => w
  end.

(** The insert of line 292 resolves; its result is not read. *)
Definition insertResolved (k : nat) (r : InsertOutcome) (w : World) : World :=
  match nth_error (ticks w) k with
  | Some (mkTick c (AwaitInsert studentId rest)) =>
      let w1 :=
        match r with
        | Inserted =>
            fetchAttendanceRecords (c_course c)
              (withAttendance
                 (attendance w ++
                    [Attendance.mk studentId (c_course c) present (clock w)]) w)
        | InsertRefused _ => fetchAttendanceRecords (c_course c) w
        | InsertThrew m => log ("Error marking attendance: " ++ m)%string w
        end in
      settle k c (forLoop c rest w1)
  | _ => w
  end.

(** ** markAbsentStudents (lines 317-357) *)

Definition absentStudentIds (s : State) : list string :=
  map Student.id
    (filter (fun student => negb (includes (recognizedStudents s) (Student.id student)))
       (students s)).

Definition absentRecords (s : State) (now : Z) : list Attendance.row :=
  map (fun studentId => Attendance.mk studentId (course s) absent now)
    (absentStudentIds s).

Definition markAbsentStudents (r : InsertOutcome) (w : World) : World :=
  let s := ui w in
  let w1 := withUi (fun s0 => setSuccessMessage None (setError None (setIsSubmitting true s0))) w in
  if (List.length (absentStudentIds s) =? 0)%nat
  then withUi (fun s0 => setIsSubmitting false
                           (setSuccessMessage (Some "All students are present!") s0)) w1
  else
    match r with
    | Inserted =>
        let w2 := withAttendance (attendance w1 ++ absentRecords s (clock w)) w1 in
        let w3 := fetchAttendanceRecords (course s) w2 in
        withUi (fun s0 => setIsSubmitting false
                  (setSuccessMessage (Some "Attendance has been completed successfully!") s0)) w3
    | InsertRefused m | InsertThrew m =>
        withUi (fun s0 => setIsSubmitting false
                  (setError (Some ("Failed to mark absent students: " ++ m)%string) s0))
          (log "Error marking absent students:" w1)
    end.

(** ** The event loop *)

Inductive Event :=
| Elapse (us : N)
| TimerFire (h : nat) (videoReady : bool)
| DetectDone (k : nat) (r : option (list string))
| InsertDone (k : nat) (r : InsertOutcome)
| FetchDone (j : nat) (r : QueryOutcome).

Definition step (w : World) (e : Event) : World :=
  match e with
  | Elapse us => withClock (clock w + Z.of_N us)%Z w
  | TimerFire h videoReady => timerFired h videoReady w
  | DetectDone k r => detectResolved k r w
  | InsertDone k r => insertResolved k r w
  | FetchDone j r => fetchResolved j r w
  end.

Definition run (evs : list Event) (w : World) : World := fold_left step evs w.

(** The page after mounting, at a given time. *)
Definition mountedAt (now : Z) : World :=
  mkWorld (mkState "" [] [] [] false false false false None None)
    [] now true false None [] 1 [] [] [].

(** ** Reading the attendance table *)

(** Rows of [status] for a student and course on the day of [today]'s
    query window. *)
Definition rowsFor (st : Status) (studentId courseName : string) (today : Z)
    (table : list Attendance.row) : list Attendance.row :=
  filter (fun r => (Attendance.student_id r =? studentId)
                   && Status_eqb (Attendance.status r) st
                   && inWindow courseName today r) table.

Definition hasPresent (studentId courseName : string) (today : Z)
    (table : list Attendance.row) : bool :=
  existsb (fun r => (Attendance.student_id r =? studentId)
                    && isPresent r && inWindow courseName today r) table.

(** Rows of a table about one student, whatever the day. *)
Definition rowsOf (studentId : string) (table : list Attendance.row)
    : list Attendance.row :=
  filter (fun r => Attendance.student_id r =? studentId) table.

(** The recognized set lists the students with a present row in
    today's window for the selected course, and only those: what a
    resolved fetchAttendanceRecords leaves. *)
Definition inSync (w : World) : bool :=
  let c := course (ui w) in
  let d := isoDate (clock w) in
  forallb (fun x => hasPresent x c d (attendance w)) (recognizedStudents (ui w))
  && forallb (fun r => includes (recognizedStudents (ui w)) (Attendance.student_id r))
       (filter (fun r => isPresent r && inWindow c d r) (attendance w)).

(** Every callback of the world, registered or running, was created
    when [s] was already in the recognized set, and none is about to
    insert [s]. *)
Definition shields (s : string) (w : World) : Prop :=
  (forall h c, In (h, c) (timers w) -> In s (c_recognizedStudents c))
  /\ (forall t, In t (ticks w) ->
        In s (c_recognizedStudents (scope t))
        /\ forall studentId rest,
             parked t = AwaitInsert studentId rest -> studentId <> s).

(** No face in the reference photo, or the photo could not be loaded. *)
Definition excluded (photo : Student.t -> PhotoOutcome) (student : Student.t) : bool :=
  match photo student with
  | FaceFound _ => false
  | NoFace => true
  | PhotoError => true
  end.

(** ** fetchCourses (lines 62-80)

    [Array.from(new Set(xs))]: the elements of [xs] in the order of
    their first occurrence. *)
Fixpoint setFrom (seen xs : list string) : list string :=
  match xs with
  | [] => seen
  | x :: t => setFrom (if includes seen x then seen else seen ++ [x]) t
  end.

Definition uniqueCourses (column : list string) : list string := setFrom [] column.

Inductive CoursesOutcome :=
| CoursesOk (column : list string)      (* the [course] of every student row *)
| CoursesError (message : string).

(** The value of [courses] after the call, and the world. *)
Definition fetchCourses (r : CoursesOutcome) (courses : list string) (w : World)
    : list string * World :=
  match r with
  | CoursesOk column => (uniqueCourses column, w)
  | CoursesError m =>
      (courses,
       withUi (setError (Some "Failed to load courses"))
         (log ("Error fetching courses: " ++ m)%string w))
  end.

(** ** What the page renders (lines 439-548) *)

Inductive Button :=
| StartCamera
| StartFaceRecognition
| StopCamera
| PauseRecognition
| CompleteAttendance.

Definition Button_eqb (a b : Button) : bool :=
  match a, b with
  | StartCamera, StartCamera
  | StartFaceRecognition, StartFaceRecognition
  | StopCamera, StopCamera
  | PauseRecognition, PauseRecognition
  | CompleteAttendance, CompleteAttendance => true
  | _, _ => false
  end.

(** The buttons of lines 439-491, each with whether it is enabled. *)
Definition buttons (isModelLoading : bool) (s : State) : list (Button * bool) :=
  if negb (isWebcamActive s)
  then [(StartCamera, negb ((course s =? "") || isModelLoading))]
  else if negb (isCapturing s)
  then [(StartFaceRecognition, negb (List.length (students s) =? 0)%nat);
        (StopCamera, true)]
  else [(PauseRecognition, true); (StopCamera, true);
        (CompleteAttendance, negb (isSubmitting s))].

(** A button that is rendered and enabled can be clicked. *)
Definition clickable (isModelLoading : bool) (s : State) (b : Button) : bool :=
  existsb (fun e => Button_eqb (fst e) b && snd e) (buttons isModelLoading s).

(** The counters of lines 507-509. *)
Definition presentShown (s : State) : Z :=
  Z.of_nat (List.length (recognizedStudents s)).

Definition absentShown (s : State) : Z :=
  (Z.of_nat (List.length (students s))
   - Z.of_nat (List.length (recognizedStudents s)))%Z.



(** ** Vocabulary of the properties *)

(** No run of the callback is parked at the insert of the label
    [unknown]. *)
Definition noUnknownParked (w : World) : Prop :=
  forall t rest, In t (ticks w) -> parked t <> AwaitInsert "unknown" rest.

(** Every registered timer has a handle below the next one handed
    out. *)
Definition handlesFresh (w : World) : Prop :=
  forall h c, In (h, c) (timers w) -> (h < nextHandle w)%nat.

(** Newest first, as [.order('created_at', { ascending: false })]. *)
Fixpoint newestFirst (l : list Attendance.row) : Prop :=
  match l with
  | [] => True
  | x :: t =>
      (forall y, In y t -> (Attendance.created_at y <= Attendance.created_at x)%Z)
      /\ newestFirst t
  end.

(** ** startFaceRecognition, await by await

    The handler runs up to [await Promise.all(...)] (line 202) when the
    button is clicked, and from there on once every reference photo has
    settled; other handlers and events can run in between.  [Build]
    holds what the second part reads: the bindings [recognizedStudents],
    [course] and [students] of the render of the click. *)
Record Build := mkBuild {
  b_recognizedStudents : list string;
  b_course : string;
  b_students : list Student.t }.

(** Lines 194-199: the guard, [setIsCapturing(true)], [setError(null)];
    then the photos are requested. *)
Definition startClicked (w : World) : World * option Build :=
  if negb (isWebcamActive (ui w)) || negb (mounted w)
     || (List.length (students (ui w)) =? 0)%nat
  then (w, None)
  else (withUi (fun s => setError None (setIsCapturing true s)) w,
        Some (mkBuild (recognizedStudents (ui w)) (course (ui w)) (students (ui w)))).

(** Lines 229-306: the photos have settled, in the order [settled] (the
    console lines follow it; [Promise.all] keeps the roster order for
    the descriptors); the gallery is filtered and the timer
    registered.  Nothing of the page's state is read again. *)
Definition photosSettled (photo : Student.t -> PhotoOutcome)
    (settled : list Student.t) (b : Build) (w : World) : World :=
  let w2 := fold_left (fun acc line => log line acc)
              (nonNull (map (complaint photo) settled)) w in
  let valid := validDescriptors photo (b_students b) in
  if (List.length valid =? 0)%nat
  then withUi (fun s =>
                 setIsCapturing false
                   (setError (Some "Could not create face descriptors from student photos. Please check the photos.") s))
         w2
  else
    let h := nextHandle w2 in
    withInterval (Some h)
      (timers w2 ++
         [(h, mkClosure (b_recognizedStudents b) (b_course b) (b_students b) valid)])
      (S h) w2.

End AttendanceCapture.




(** * The enrolment form (StudentRegistration) *)

Module StudentRegistration.

Record File := mkFile { fileName : string }.

Record State := mkState {
  name : string;
  studentId : string;
  course : string;
  photo : option File;
  isSaving : bool;
  error : option string;
  successMessage : option string;
  isModelLoading : bool }.

Definition setName (v : string) (s : State) : State :=
  mkState v (studentId s) (course s) (photo s) (isSaving s) (error s)
    (successMessage s) (isModelLoading s).

Definition setStudentId (v : string) (s : State) : State :=
  mkState (name s) v (course s) (photo s) (isSaving s) (error s)
    (successMessage s) (isModelLoading s).

Definition setCourse (v : string) (s : State) : State :=
  mkState (name s) (studentId s) v (photo s) (isSaving s) (error s)
    (successMessage s) (isModelLoading s).

Definition setPhoto (v : option File) (s : State) : State :=
  mkState (name s) (studentId s) (course s) v (isSaving s) (error s)
    (successMessage s) (isModelLoading s).

Definition setIsSaving (v : bool) (s : State) : State :=
  mkState (name s) (studentId s) (course s) (photo s) v (error s)
    (successMessage s) (isModelLoading s).

Definition setError (v : option string) (s : State) : State :=
  mkState (name s) (studentId s) (course s) (photo s) (isSaving s) v
    (successMessage s) (isModelLoading s).

Definition setSuccessMessage (v : option string) (s : State) : State :=
  mkState (name s) (studentId s) (course s) (photo s) (isSaving s) (error s)
    v (isModelLoading s).

(** A row of [public.students] as the form inserts it. *)
Record StudentRow := mkRow {
  row_name : string;
  row_student_id : string;
  row_course : string;
  row_photo_url : string;
  row_descriptor : Descriptor }.

(** Calls on [supabase.storage.from('images')]. *)
Inductive StorageCall :=
| Upload (path : string)
| Remove (paths : list string).

Record World := mkWorld {
  ui : State;
  objects : list string;            (* paths held by the bucket 'images' *)
  studentsTable : list StudentRow;
  storageCalls : list StorageCall;
  refreshes : nat;                  (* calls of fetchStudents *)
  console : list string }.

Definition withUi (f : State -> State) (w : World) : World :=
  mkWorld (f (ui w)) (objects w) (studentsTable w) (storageCalls w)
    (refreshes w) (console w).

Definition log (line : string) (w : World) : World :=
  mkWorld (ui w) (objects w) (studentsTable w) (storageCalls w)
    (refreshes w) (console w ++ [line]).

Definition called (c : StorageCall) (w : World) : World :=
  mkWorld (ui w) (objects w) (studentsTable w) (storageCalls w ++ [c])
    (refreshes w) (console w).

Definition stored (path : string) (w : World) : World :=
  mkWorld (ui w) (objects w ++ [path]) (studentsTable w) (storageCalls w)
    (refreshes w) (console w).

Definition removed (paths : list string) (w : World) : World :=
  mkWorld (ui w) (filter (fun p => negb (includes paths p)) (objects w))
    (studentsTable w) (storageCalls w) (refreshes w) (console w).

Definition insertedStudent (r : StudentRow) (w : World) : World :=
  mkWorld (ui w) (objects w) (studentsTable w ++ [r]) (storageCalls w)
    (refreshes w) (console w).

Definition fetchStudents (w : World) : World :=
  mkWorld (ui w) (objects w) (studentsTable w) (storageCalls w)
    (S (refreshes w)) (console w).

Definition resetForm (s : State) : State :=
  setError None (setPhoto None (setCourse "" (setStudentId "" (setName "" s)))).

(** What the collaborators answer during one submit. *)
Inductive UploadOutcome :=
| Uploaded
| UploadFailed (message : string).

Inductive DescriptorOutcome :=
| Computed (d : Descriptor)
| NoFaceDetected
| ImageFailed (message : string).

Record Backend := mkBackend {
  dateNow : N;                      (* Date.now(), milliseconds *)
  upload : UploadOutcome;
  face : DescriptorOutcome;         (* computeFaceDescriptor(publicUrl) *)
  insert : InsertOutcome;
  remove : bool }.

(** ** Identifiers and block scope

    A [const] lives in the block that declares it.  A scope lists the
    bindings visible at a point of the program, innermost first. *)

Inductive Value :=
| VString (s : string)
| VObject.

Definition Scope := list (string * Value).

Fixpoint resolve (x : string) (sc : Scope) : option Value :=
  match sc with
  | [] => None
  | (y, v) :: t => if y =? x then Some v else resolve x t
  end.

Definition truthy (v : Value) : bool :=
  match v with
  | VString s => negb (s =? "")
  | VObject => true
  end.

Definition objectsNamed (names : list string) : Scope :=
  map (fun x => (x, VObject)) names.

(** The bindings around the [try] statement of handleSubmit: its
    parameter, the bindings of the component body, the imports. *)
Definition enclosingScope (s : State) : Scope :=
  [("e", VObject)]
  ++ [("name", VString (name s)); ("studentId", VString (studentId s));
      ("course", VString (course s))]
  ++ objectsNamed
       ["students"; "setStudents"; "loading"; "setLoading"; "setName";
        "setStudentId"; "setCourse"; "photo"; "setPhoto"; "photoPreview";
        "setPhotoPreview"; "isUsingWebcam"; "setIsUsingWebcam"; "isSaving";
        "setIsSaving"; "searchTerm"; "setSearchTerm"; "error"; "setError";
        "successMessage"; "setSuccessMessage"; "isModelLoading";
        "setIsModelLoading"; "videoRef"; "canvasRef"; "fileInputRef";
        "loadModels"; "fetchStudents"; "startWebcam"; "stopWebcam";
        "capturePhoto"; "handleFileChange"; "clearPhoto"; "resetForm";
        "computeFaceDescriptor"; "handleSubmit"; "filteredStudents"]
  ++ objectsNamed
       ["React"; "useState"; "useEffect"; "useRef"; "supabase"; "Card";
        "Button"; "Input"; "UserPlus"; "Camera"; "X"; "Upload"; "CheckCircle";
        "faceapi"; "StudentRegistration"].

(** [photo.name.split('.').pop()] *)
Fixpoint lastSegment (acc s : string) : string :=
  match s with
  | EmptyString => acc
  | String c t =>
      if Ascii.eqb c "."%char then lastSegment "" t
      else lastSegment (acc ++ String c "")%string t
  end.

Definition decimal (n : N) : string := NilZero.string_of_uint (N.to_uint n).

(** The three [const]s at the head of the [try] block (lines 187-189). *)
Definition tryScope (b : Backend) (f : File) (outer : Scope) : Scope :=
  let fileExt := lastSegment "" (fileName f) in
  let fileName := (decimal (dateNow b) ++ "." ++ fileExt)%string in
  let filePath := ("students/" ++ fileName)%string in
  [("filePath", VString filePath); ("fileName", VString fileName);
   ("fileExt", VString fileExt)] ++ outer.

Definition publicUrl (path : string) : string :=
  ("/storage/v1/object/public/images/" ++ path)%string.

Inductive Completion :=
| Normal
| Thrown (message : string).

Definition referenceError (x : string) : Completion :=
  Thrown ("ReferenceError: " ++ x ++ " is not defined")%string.

Definition text (v : Value) : string :=
  match v with
  | VString s => s
  | VObject => "[object Object]"
  end.

(** The [try] block (lines 183-227), run in its own scope. *)
Definition tryBlock (b : Backend) (sc : Scope) (w : World) : World * Completion :=
  let s := ui w in
  let w1 := withUi (setIsSaving true) w in
  match resolve "filePath" sc with
  | None => (w1, referenceError "filePath")
  | Some v =>
      let filePath := text v in
      let w2 := called (Upload filePath) w1 in
      match upload b with
      | UploadFailed m => (w2, Thrown m)
      | Uploaded =>
          let w3 := stored filePath w2 in
          match face b with
          | NoFaceDetected =>
              (log "Error computing face descriptor:" w3,
               Thrown "No face detected in the image")
          | ImageFailed m =>
              (log "Error computing face descriptor:" w3, Thrown m)
          | Computed d =>
              match insert b with
              | Inserted =>
                  let w4 := insertedStudent
                              (mkRow (name s) (studentId s) (course s)
                                 (publicUrl filePath) d) w3 in
                  (fetchStudents
                     (withUi (fun s0 =>
                                resetForm
                                  (setSuccessMessage
                                     (Some "Student registered successfully!") s0))
                        w4),
                   Normal)
              | InsertRefused m => (w3, Thrown m)
              | InsertThrew m => (w3, Thrown m)
              end
          end
      end
  end.

(** The [catch] clause (lines 228-237), run in the scope it is written
    in: the enclosing scope and its parameter [error]. *)
Definition catchBlock (b : Backend) (message : string) (sc : Scope) (w : World)
    : World * Completion :=
  let w1 := log "Error registering student:" w in
  let w2 := withUi (setError (Some ("Failed to register student: " ++ message)%string)) w1 in
  match resolve "filePath" sc with
  | None => (w2, referenceError "filePath")
  | Some v =>
      if truthy v
      then
        let w3 := called (Remove [text v]) w2 in
        ((if remove b then removed [text v] w3 else w3), Normal)
      else (w2, Normal)
  end.

(** handleSubmit (lines 168-241); the completion is that of the async
    function: [Thrown] is a rejected promise. *)
Definition handleSubmit (b : Backend) (w : World) : World * Completion :=
  let s := ui w in
  let w0 := withUi (fun s0 => setSuccessMessage None (setError None s0)) w in
  match photo s with
  | Some f =>
      if (name s =? "") || (studentId s =? "") || (course s =? "")
      then (withUi (setError (Some "All fields are required, including student photo")) w0,
            Normal)
      else if isModelLoading s
      then (withUi (setError (Some "Please wait for facial recognition models to load")) w0,
            Normal)
      else
        let outer := enclosingScope s in
        let (w1, c1) := tryBlock b (tryScope b f outer) w0 in
        let (w2, c2) :=
          match c1 with
          | Normal => (w1, Normal)
          | Thrown m => catchBlock b m (("error", VObject) :: outer) w1
          end in
        (withUi (setIsSaving false) w2, c2)
  | None =>
      (withUi (setError (Some "All fields are required, including student photo")) w0,
       Normal)
  end.

(** ** Vocabulary of the properties *)

(** The form passes the two checks at the head of handleSubmit. *)
Definition formComplete (s : State) : bool :=
  negb (name s =? "") && negb (studentId s =? "") && negb (course s =? "")
  && match photo s with Some _ => true | None => false end
  && negb (isModelLoading s).

(** Every collaborator answers well. *)
Definition goesThrough (b : Backend) : bool :=
  match upload b, face b, insert b with
  | Uploaded, Computed _, Inserted => true
  | _, _, _ => false
  end.

(** The value of [filePath] for a photo (lines 187-189). *)
Definition uploadPath (b : Backend) (f : File) : string :=
  ("students/" ++ decimal (dateNow b) ++ "." ++ lastSegment "" (fileName f))%string.

Fixpoint hasChar (c : ascii) (s : string) : bool :=
  match s with
  | EmptyString => false
  | String a t => Ascii.eqb a c || hasChar c t
  end.

End StudentRegistration.


(** * The matcher *)

Module FaceMatcher.

Record FaceMatch := mkMatch {
  matchLabel : string;
  matchDistance : Q }.

Section Matcher.

(** Distance between two descriptors. *)
Variable distance : Descriptor -> Descriptor -> Q.

(** Every reference embedding of the gallery with its identity, in
    gallery order. *)
Definition references (gallery : list LabeledFaceDescriptors)
    : list (string * Descriptor) :=
  flat_map (fun e => map (fun d => (label e, d)) (descriptors e)) gallery.

(** The closest reference among [refs], starting from [best]; a later
    reference replaces the best one only when strictly closer. *)
Fixpoint nearest (live : Descriptor) (best : string * Q)
    (refs : list (string * Descriptor)) : string * Q :=
  match refs with
  | [] => best
  | (l, d) :: t =>
      let x := distance live d in
      nearest live (if Qle_bool (snd best) x then best else (l, x)) t
  end.

(** Modelled from the spec: [faceapi.FaceMatcher] and its
    [findBestMatch] belong to the face-api.js package, whose code is
    not among the sources; only the construction (line 239) and the
    call (line 273) are.  The definition follows section 4.3: the
    distance to every reference embedding, the minimum, the identity
    when the minimum is at most the threshold and [unknown]
    otherwise.  [None] stands for an empty gallery. *)
Definition findBestMatch (threshold : Q) (gallery : list LabeledFaceDescriptors)
    (live : Descriptor) : option FaceMatch :=
  match references gallery with
  | [] => None
  | (l, d) :: t =>
      let best := nearest live (l, distance live d) t in
      Some (if Qle_bool (snd best) threshold
            then mkMatch (fst best) (snd best)
            else mkMatch "unknown" (snd best))
  end.

End Matcher.

(** The threshold of line 239. *)
Definition distanceThreshold : Q := 6 # 10.

End FaceMatcher.

(** * The account pages (src/pages/RegisterPage.tsx, LoginPage.tsx) *)

(** A password is a JavaScript string: [length] counts its UTF-16 code
    units and [!==] compares them. *)
Definition JsString := list N.

Fixpoint jsEq (a b : JsString) : bool :=
  match a, b with
  | [], [] => true
  | x :: a', y :: b' => N.eqb x y && jsEq a' b'
  | _, _ => false
  end.

(** [message || fallback] on strings: the fallback replaces a missing
    or empty message. *)
Definition orElse (message fallback : string) : string :=
  if message =? "" then fallback else message.

(** What the auth client answers: success, or an error with its
    [message] (empty when it has none). *)
Inductive AuthOutcome :=
| AuthOk
| AuthError (message : string).

Module RegisterPage.

Record State := mkState {
  email : string;
  password : JsString;
  confirmPassword : JsString;
  name : string;
  loading : bool;
  error : option string }.

Definition setLoading (v : bool) (s : State) : State :=
  mkState (email s) (password s) (confirmPassword s) (name s) v (error s).

Definition setError (v : option string) (s : State) : State :=
  mkState (email s) (password s) (confirmPassword s) (name s) (loading s) v.

(** A call of [supabase.auth.signUp]. *)
Record SignUp := mkSignUp {
  su_email : string;
  su_password : JsString;
  su_name : string;
  su_role : string }.

Record World := mkWorld {
  ui : State;
  signUps : list SignUp;
  navigations : list string }.

Definition withUi (f : State -> State) (w : World) : World :=
  mkWorld (f (ui w)) (signUps w) (navigations w).

Definition signedUp (c : SignUp) (w : World) : World :=
  mkWorld (ui w) (signUps w ++ [c]) (navigations w).

Definition navigate (to : string) (w : World) : World :=
  mkWorld (ui w) (signUps w) (navigations w ++ [to]).

(** handleRegister (lines 18-59) *)
Definition handleRegister (r : AuthOutcome) (w : World) : World :=
  let s := ui w in
  let w0 := withUi (setError None) w in
  if negb (jsEq (password s) (confirmPassword s))
  then withUi (setError (Some "Passwords do not match")) w0
  else if (List.length (password s) <? 6)%nat
  then withUi (setError (Some "Password must be at least 6 characters")) w0
  else
    let w1 := signedUp (mkSignUp (email s) (password s) (name s) "admin")
                (withUi (setLoading true) w0) in
    match r with
    | AuthOk => withUi (setLoading false) (navigate "/" w1)
    | AuthError m =>
        withUi (setLoading false)
          (withUi (setError (Some (orElse m "An error occurred during registration"))) w1)
    end.

End RegisterPage.

Module LoginPage.

Record State := mkState {
  email : string;
  password : JsString;
  loading : bool;
  error : option string }.

Definition setLoading (v : bool) (s : State) : State :=
  mkState (email s) (password s) v (error s).

Definition setError (v : option string) (s : State) : State :=
  mkState (email s) (password s) (loading s) v.

Record World := mkWorld {
  ui : State;
  signIns : list (string * JsString);
  navigations : list string }.

Definition withUi (f : State -> State) (w : World) : World :=
  mkWorld (f (ui w)) (signIns w) (navigations w).

Definition signedIn (c : string * JsString) (w : World) : World :=
  mkWorld (ui w) (signIns w ++ [c]) (navigations w).

Definition navigate (to : string) (w : World) : World :=
  mkWorld (ui w) (signIns w) (navigations w ++ [to]).

(** handleLogin (lines 16-34) *)
Definition handleLogin (r : AuthOutcome) (w : World) : World :=
  let s := ui w in
  let w1 := signedIn (email s, password s)
              (withUi (fun s0 => setLoading true (setError None s0)) w) in
  match r with
  | AuthOk => withUi (setLoading false) (navigate "/dashboard" w1)
  | AuthError m =>
      withUi (setLoading false)
        (withUi (setError (Some (orElse m "An error occurred during login"))) w1)
  end.

End LoginPage.

(** * The routes (src/App.tsx) *)

Module App.

(** The [Route] of lines 63-69 that matches the location. *)
Inductive Route :=
| RootRoute           (* path="/" *)
| RegisterRoute       (* path="/register" *)
| DashboardRoute      (* path="/dashboard" *)
| StudentsRoute       (* path="/students" *)
| AttendanceRoute     (* path="/attendance" *)
| ReportsRoute        (* path="/reports" *)
| OtherRoute.         (* path="*" *)

Inductive Element :=
| LoadingScreenEl
| LoginPageEl
| RegisterPageEl
| DashboardEl
| StudentRegistrationEl
| AttendanceCaptureEl
| ReportsEl
| NotFoundEl
| Navigate (to : Route).

Record State := mkState {
  user : option string;
  loading : bool }.

(** The listener of [onAuthStateChange] and [checkUser] (lines 27-44). *)
Definition onAuthStateChange (session : option string) (s : State) : State :=
  mkState session false.

Definition checkUser (session : option string) (s : State) : State :=
  mkState session false.

Definition signedInUser (s : State) : bool :=
  match user s with Some _ => true | None => false end.

(** The [element] of the matching route (lines 63-69). *)
Definition element (s : State) (r : Route) : Element :=
  match r with
  | RootRoute => if signedInUser s then Navigate DashboardRoute else LoginPageEl
  | RegisterRoute => if negb (signedInUser s) then RegisterPageEl else Navigate DashboardRoute
  | DashboardRoute => if signedInUser s then DashboardEl else Navigate RootRoute
  | StudentsRoute => if signedInUser s then StudentRegistrationEl else Navigate RootRoute
  | AttendanceRoute => if signedInUser s then AttendanceCaptureEl else Navigate RootRoute
  | ReportsRoute => if signedInUser s then ReportsEl else Navigate RootRoute
  | OtherRoute => NotFoundEl
  end.

(** What App renders at a location (lines 52-75). *)
Definition render (s : State) (r : Route) : Element :=
  if loading s then LoadingScreenEl else element s r.

(** What is on screen once the redirects, at most [hops] of them, have
    been followed. *)
Fixpoint settled (hops : nat) (s : State) (r : Route) : Element :=
  match render s r, hops with
  | Navigate to, S n => settled n s to
  | e, _ => e
  end.

Definition protected (e : Element) : bool :=
  match e with
  | DashboardEl | StudentRegistrationEl | AttendanceCaptureEl | ReportsEl => true
  | _ => false
  end.

Definition isNavigate (e : Element) : bool :=
  match e with
  | Navigate _ => true
  | _ => false
  end.

End App.

(** * The dashboard (src/pages/Dashboard.tsx) *)

Module Dashboard.

Record DashboardStats := mkStats {
  totalStudents : Z;
  totalAttendance : Z;
  todayPresent : Z;
  todayAbsent : Z }.

Record State := mkState {
  stats : DashboardStats;
  loading : bool;
  recentActivity : list Attendance.row }.

(** The window of lines 44-45: today, any course. *)
Definition inDay (today : Z) (r : Attendance.row) : bool :=
  (startOfDay today <=? Attendance.created_at r)%Z
  && (Attendance.created_at r <=? lastSecondOfDay today)%Z.

(** [.order('created_at', { ascending: false }).limit(5)] *)
Definition recent (table : list Attendance.row) : list Attendance.row :=
  firstn 5 (orderDesc table).

(** fetchDashboardData (lines 27-75), on the two tables as they are
    when it runs; [ok] is false when one of the four queries answers
    with an error. *)
Definition fetchDashboardData (ok : bool) (students : list Student.t)
    (table : list Attendance.row) (now : Z) (s : State) : State :=
  let studentCount := Z.of_nat (List.length students) in
  let attendanceCount := Z.of_nat (List.length table) in
  let today := isoDate now in
  let todayPresentCount :=
    Z.of_nat (List.length (filter (fun r => isPresent r && inDay today r) table)) in
  let todayAbsentCount :=
    if (studentCount =? 0)%Z then 0%Z else (studentCount - todayPresentCount)%Z in
  if ok
  then mkState (mkStats studentCount attendanceCount todayPresentCount todayAbsentCount)
         false (recent table)
  else mkState (stats s) false (recentActivity s).

End Dashboard.

(** * The reports page (Reports) *)

Module Reports.

(** A row as [select('*, students(name, student_id)')] returns it. *)
Record Joined := mkJoined {
  record : Attendance.row;
  students : option (string * string) }.   (* name, student_id; null without the student *)

Record AttendanceStats := mkStats {
  totalRecords : nat;
  presentCount : nat;
  absentCount : nat }.

Record State := mkState {
  selectedCourse : string;
  startDate : option Z;              (* a date of the date input, or '' *)
  endDate : option Z;
  attendanceRecords : list Joined;
  filteredRecords : list Joined;
  stats : AttendanceStats;
  loading : bool;
  searchTerm : string }.

Definition inRange (courseName : string) (first last : Z) (r : Attendance.row) : bool :=
  (Attendance.course r =? courseName)
  && (startOfDay first <=? Attendance.created_at r)%Z
  && (Attendance.created_at r <=? lastSecondOfDay last)%Z.

Fixpoint studentOf (roster : list Student.t) (id : string) : option (string * string) :=
  match roster with
  | [] => None
  | s :: t =>
      if Student.id s =? id then Some (Student.name s, Student.student_id s)
      else studentOf t id
  end.

Definition queryRange (roster : list Student.t) (table : list Attendance.row)
    (courseName : string) (first last : Z) : list Joined :=
  map (fun r => mkJoined r (studentOf roster (Attendance.student_id r)))
    (orderDesc (filter (inRange courseName first last) table)).

Definition isPresentJ (j : Joined) : bool := isPresent (record j).
Definition isAbsentJ (j : Joined) : bool := isAbsent (record j).

(** fetchAttendanceData, run by the effect when a course and both
    dates are set. *)
Definition fetchAttendanceData (r : QueryOutcome) (roster : list Student.t)
    (table : list Attendance.row) (s : State) : State :=
  match startDate s, endDate s with
  | Some first, Some last =>
      if selectedCourse s =? "" then s
      else
        match r with
        | QueryOk =>
            let data := queryRange roster table (selectedCourse s) first last in
            mkState (selectedCourse s) (startDate s) (endDate s) data data
              (mkStats (List.length data)
                 (List.length (filter isPresentJ data))
                 (List.length (filter isAbsentJ data)))
              false (searchTerm s)
        | QueryError _ =>
            mkState (selectedCourse s) (startDate s) (endDate s)
              (attendanceRecords s) (filteredRecords s) (stats s) false (searchTerm s)
        end
  | _, _ => s
  end.

(** [haystack.includes(needle)] on strings. *)
Fixpoint contains (needle haystack : string) : bool :=
  String.prefix needle haystack
  || match haystack with
     | EmptyString => false
     | String _ t => contains needle t
     end.

Section Search.

(** [toLowerCase] and [trim] of the JavaScript engine. *)
Variable toLowerCase : string -> string.
Variable trim : string -> string.

(** The test of lines 153-156 on one record; a record without its
    student passes neither branch. *)
Definition matches (term : string) (j : Joined) : bool :=
  match students j with
  | Some (name, studentId) =>
      contains (toLowerCase term) (toLowerCase name)
      || contains (toLowerCase term) (toLowerCase studentId)
  | None => false
  end.

(** filterRecords (lines 147-159) *)
Definition filterRecords (s : State) : State :=
  mkState (selectedCourse s) (startDate s) (endDate s) (attendanceRecords s)
    (if trim (searchTerm s) =? "" then attendanceRecords s
     else filter (matches (searchTerm s)) (attendanceRecords s))
    (stats s) (loading s) (searchTerm s).

(** The effect on [searchTerm, attendanceRecords] (lines 83-87). *)
Definition recordsEffect (s : State) : State :=
  if (List.length (attendanceRecords s) =? 0)%nat then s else filterRecords s.

(** A load and the effect it triggers: the effect runs when the load
    has set new records. *)
Definition loaded (r : QueryOutcome) (roster : list Student.t)
    (table : list Attendance.row) (s : State) : State :=
  match startDate s, endDate s, r with
  | Some _, Some _, QueryOk =>
      if selectedCourse s =? "" then s
      else recordsEffect (fetchAttendanceData r roster table s)
  | _, _, _ => fetchAttendanceData r roster table s
  end.

End Search.

(** [array.join(sep)] on strings. *)
Fixpoint join (sep : string) (l : list string) : string :=
  match l with
  | [] => ""
  | [x] => x
  | x :: t => (x ++ sep ++ join sep t)%string
  end.

Fixpoint countChar (c : ascii) (s : string) : nat :=
  match s with
  | EmptyString => O
  | String a t => (if Ascii.eqb a c then 1 else 0) + countChar c t
  end.

Definition statusText (st : Status) : string :=
  match st with
  | present => "present"
  | absent => "absent"
  end.

Section CsvExport.

(** [toLocaleDateString] and [toLocaleTimeString] of the browser's
    locale, on a timestamp. *)
Variable toLocaleDateString : Z -> string.
Variable toLocaleTimeString : Z -> string.

Definition headers : list string :=
  ["Date"; "Time"; "Student ID"; "Student Name"; "Status"].

(** The fields of one record (lines 167-179). *)
Definition csvRow (j : Joined) : list string :=
  [toLocaleDateString (Attendance.created_at (record j));
   toLocaleTimeString (Attendance.created_at (record j));
   match students j with Some (_, studentId) => studentId | None => "" end;
   match students j with Some (name, _) => name | None => "" end;
   statusText (Attendance.status (record j))].

Definition csvLines (records : list Joined) : list string :=
  join "," headers :: map (fun j => join "," (csvRow j)) records.

(** exportToCSV (lines 161-198): the content of the downloaded file,
    or nothing when no record is shown. *)
Definition exportToCSV (s : State) : option string :=
  match filteredRecords s with
  | [] => None
  | _ :: _ => Some (join (String (ascii_of_nat 10) "") (csvLines (filteredRecords s)))
  end.

End CsvExport.

End Reports.

(** * A classroom to run the page on *)

Module Sample.
Import AttendanceCapture.

Definition alice : Student.t :=
  Student.mk "id-alice" "Alice" "S001" "CS101" "photos/alice.jpg".
Definition bob : Student.t :=
  Student.mk "id-bob" "Bob" "S002" "CS101" "photos/bob.jpg".
Definition carol : Student.t :=
  Student.mk "id-carol" "Carol" "S003" "CS101" "photos/carol.jpg".

(** Noon of day 20000 after the epoch. *)
Definition noon : Z := (20000 * usPerDay + 12 * 3600 * usPerSecond)%Z.

(** Every reference photo shows a face. *)
Definition everyFace (s : Student.t) : PhotoOutcome :=
  FaceFound [inject_Z (Z.of_nat (String.length (Student.name s)))].

(** Bob's photo shows no face. *)
Definition bobFaceless (s : Student.t) : PhotoOutcome :=
  if Student.id s =? "id-bob" then NoFace else everyFace s.

(** The operator opens the page, selects CS101 (roster and today's
    records load) and starts the camera. *)
Definition classroom (roster : list Student.t) : World :=
  startWebcam true true
    (run [FetchDone 0 QueryOk]
       (selectCourse "CS101" (StudentsOk roster) (mountedAt noon))).

(** ... and starts face recognition. *)
Definition recognising : World :=
  startFaceRecognition everyFace (classroom [alice; bob]).

(** One sampling tick in which Alice's face is in the frame and is
    matched, run to its end before anything else happens. *)
Definition aliceTick : list Event :=
  [TimerFire 1 true; DetectDone 0 (Some ["id-alice"]);
   InsertDone 0 Inserted; FetchDone 0 QueryOk; Elapse 1000000%N].

(** Alice was marked present at nine in an earlier session; the page is
    opened again at noon, CS101 is selected and the camera started.
    The query of today's records has not resolved yet. *)
Definition morningRow : Attendance.row :=
  Attendance.mk "id-alice" "CS101" present (20000 * usPerDay + 9 * 3600 * usPerSecond)%Z.


(** Alice has been recognized once; Bob never shows up. *)
Definition afterAlice : World := run aliceTick recognising.

(** The operator completes attendance, the refresh resolves, a second
    passes, and the operator completes attendance again. *)
Definition closedOnce : World :=
  run [FetchDone 0 QueryOk; Elapse 1000000%N] (markAbsentStudents Inserted afterAlice).

Definition closedTwice : World := markAbsentStudents Inserted closedOnce.



(** The labels of the gallery held by the callback of timer [h]. *)
Definition galleryOf (h : nat) (w : World) : option (list string) :=
  option_map (fun c => map label (c_faceMatcher c)) (lookupTimer h (timers w)).

(** [n] sampling ticks in a row with Alice's face in the frame. *)
Fixpoint sameFace (n : nat) : list Event :=
  match n with
  | O => []
  | S n' => aliceTick ++ sameFace n'
  end.

(** A distance on one-number descriptors. *)
Definition gap (a b : Descriptor) : Q :=
  Qabs (hd 0 a - hd 0 b)%Q.

(** CS101 is selected, then MA201 at once: both queries of today's
    records are pending. *)
Definition twoSelections : World :=
  selectCourse "MA201" (StudentsOk [])
    (selectCourse "CS101" (StudentsOk [alice; bob])
       (withAttendance [morningRow] (mountedAt noon))).



End Sample.



(** * An enrolment to run the form on *)

Module Enrolment.
Import StudentRegistration.

(** The form is filled, with a photo, and the models are loaded. *)
Definition filledForm : World :=
  mkWorld (mkState "Ann" "S004" "CS101" (Some (mkFile "ann.jpg"))
             false None None false)
    [] [] [] 0 [].

(** The upload succeeds; no face is found in the uploaded photo. *)
Definition noFaceInPhoto : Backend :=
  mkBackend 1728043200000%N Uploaded NoFaceDetected Inserted true.

End Enrolment.




(** * Properties *)

Unset Implicit Arguments.
Import AttendanceCapture.

(** ** The model on small inputs *)

Example isoDate_noon : isoDate Sample.noon = 20000%Z.
Proof. reflexivity. Qed.

(** The window of the query ends at 23:59:59: a row created half a
    second later, on the same date, is outside it. *)
Example window_keeps_last_second :
  inWindow "CS101" 20000
    (Attendance.mk "id-alice" "CS101" present
       (20000 * usPerDay + 86399 * usPerSecond)%Z) = true.
Proof. reflexivity. Qed.

Example window_drops_after_last_second :
  inWindow "CS101" 20000
    (Attendance.mk "id-alice" "CS101" present
       (20000 * usPerDay + 86399 * usPerSecond + 500000)%Z) = false.
Proof. reflexivity. Qed.

Example query_orders_newest_first :
  map Attendance.created_at
    (queryAttendance
       [Attendance.mk "id-alice" "CS101" present (Sample.noon + 5)%Z;
        Attendance.mk "id-bob" "MA201" present (Sample.noon + 6)%Z;
        Attendance.mk "id-bob" "CS101" absent (Sample.noon + 7)%Z]
       "CS101" 20000)
  = [(Sample.noon + 7)%Z; (Sample.noon + 5)%Z].
Proof. reflexivity. Qed.

Example fileExt_of_dotted_name :
  StudentRegistration.lastSegment "" "ann.photo.jpg" = "jpg".
Proof. reflexivity. Qed.

Example fileExt_without_dot :
  StudentRegistration.lastSegment "" "photo" = "photo".
Proof. reflexivity. Qed.

Example filePath_in_try_scope :
  StudentRegistration.resolve "filePath"
    (StudentRegistration.tryScope Enrolment.noFaceInPhoto
       (StudentRegistration.mkFile "ann.jpg")
       (StudentRegistration.enclosingScope
          (StudentRegistration.ui Enrolment.filledForm)))
  = Some (StudentRegistration.VString "students/1728043200000.jpg").
Proof. reflexivity. Qed.

(** A reference at exactly the threshold is matched; one farther away
    is not. *)
Example match_at_the_threshold :
  option_map FaceMatcher.matchLabel
    (FaceMatcher.findBestMatch Sample.gap FaceMatcher.distanceThreshold
       [mkLabeled "id-alice" [[(6 # 10)%Q]]; mkLabeled "id-bob" [[(2 # 1)%Q]]]
       [(0 # 1)%Q])
  = Some "id-alice".
Proof. reflexivity. Qed.

Example no_match_beyond_the_threshold :
  option_map FaceMatcher.matchLabel
    (FaceMatcher.findBestMatch Sample.gap FaceMatcher.distanceThreshold
       [mkLabeled "id-alice" [[(61 # 100)%Q]]; mkLabeled "id-bob" [[(2 # 1)%Q]]]
       [(0 # 1)%Q])
  = Some "unknown".
Proof. reflexivity. Qed.

(** An equidistant later reference does not replace the first one. *)
Example first_of_two_equidistant :
  option_map FaceMatcher.matchLabel
    (FaceMatcher.findBestMatch Sample.gap FaceMatcher.distanceThreshold
       [mkLabeled "id-alice" [[(1 # 2)%Q]]; mkLabeled "id-bob" [[(-1 # 2)%Q]]]
       [(0 # 1)%Q])
  = Some "id-alice".
Proof. reflexivity. Qed.

(** A run of the callback whose detection is slow: the operator pauses
    in between, and the parked run still inserts when it resumes. *)
Example paused_run_still_inserts :
  map Attendance.student_id
    (attendance
       (run [DetectDone 0 (Some ["id-bob"]); InsertDone 0 Inserted]
          (stopFaceRecognition (run [TimerFire 1 true] Sample.recognising))))
  = ["id-bob"].
Proof. reflexivity. Qed.

(** ** Arrays *)

Lemma includes_In (l : list string) (x : string) :
  includes l x = true <-> In x l.
Proof.
  unfold includes. rewrite existsb_exists. split.
  - intros [y [Hy E]]. apply String.eqb_eq in E. now subst.
  - intros H. exists x. split; [assumption | apply String.eqb_refl].
Qed.

Lemma includes_false (l : list string) (x : string) :
  includes l x = false <-> ~ In x l.
Proof.
  rewrite <- includes_In. destruct (includes l x); split; intros; congruence.
Qed.

Lemma removeAt_In {A} (x : A) (l : list A) (k : nat) :
  In x (removeAt k l) -> In x l.
Proof.
  revert k. induction l as [|a l IH]; intros [|k]; simpl; auto.
  intros [E | H]; [now left | right; eauto].
Qed.

Lemma replaceAt_In {A} (x v : A) (l : list A) (k : nat) :
  In x (replaceAt k v l) -> x = v \/ In x l.
Proof.
  revert k. induction l as [|a l IH]; intros [|k]; simpl; auto.
  - intros [E | H]; auto.
  - intros [E | H]; auto. destruct (IH _ H); auto.
Qed.

Lemma lookupTimer_In (h : nat) (ts : list (nat * Closure)) (c : Closure) :
  lookupTimer h ts = Some c -> In (h, c) ts.
Proof.
  induction ts as [|[h' c'] ts IH]; simpl; [discriminate|].
  destruct (Nat.eqb_spec h' h) as [->|_].
  - intros [= ->]. now left.
  - intros H. right. auto.
Qed.

(** ** The query *)

Lemma insertDesc_In (x r : Attendance.row) (l : list Attendance.row) :
  In x (insertDesc r l) <-> x = r \/ In x l.
Proof.
  induction l as [|a l IH]; simpl.
  - intuition.
  - destruct (Attendance.created_at a <=? Attendance.created_at r)%Z; simpl.
    + intuition.
    + rewrite IH. intuition.
Qed.

Lemma orderDesc_In (x : Attendance.row) (l : list Attendance.row) :
  In x (orderDesc l) <-> In x l.
Proof.
  induction l as [|a l IH]; simpl; [tauto|].
  rewrite insertDesc_In, IH. intuition.
Qed.

Lemma hasPresent_spec (s c : string) (d : Z) (table : list Attendance.row) :
  hasPresent s c d table = true <->
  exists r, In r table /\ Attendance.student_id r = s
            /\ isPresent r = true /\ inWindow c d r = true.
Proof.
  unfold hasPresent. rewrite existsb_exists. split.
  - intros [r [Hin H]]. apply andb_prop in H as [H Hw]. apply andb_prop in H as [Hs Hp].
    apply String.eqb_eq in Hs. eauto 6.
  - intros [r [Hin [Hs [Hp Hw]]]]. exists r. split; [assumption|].
    subst s. now rewrite String.eqb_refl, Hp, Hw.
Qed.

(** The ids a resolved query puts in the recognized set are those of
    the students with a present row in the window. *)
Lemma presentIds_query (s c : string) (d : Z) (table : list Attendance.row) :
  In s (presentIds (queryAttendance table c d)) <-> hasPresent s c d table = true.
Proof.
  unfold presentIds, queryAttendance. rewrite in_map_iff, hasPresent_spec. split.
  - intros [r [Hs Hin]]. apply filter_In in Hin as [Hin Hp].
    apply orderDesc_In, filter_In in Hin as [Hin Hw]. eauto 6.
  - intros [r [Hin [Hs [Hp Hw]]]]. exists r. split; [assumption|].
    apply filter_In. split; [|assumption].
    apply orderDesc_In, filter_In. now split.
Qed.

Lemma rowsOf_app (s : string) (a b : list Attendance.row) :
  rowsOf s (a ++ b) = rowsOf s a ++ rowsOf s b.
Proof. apply filter_app. Qed.

Lemma hasPresent_app (s c : string) (d : Z) (a b : list Attendance.row) :
  hasPresent s c d (a ++ b) = hasPresent s c d a || hasPresent s c d b.
Proof. apply existsb_app. Qed.

(** ** The console *)

Lemma logs_world (lines : list string) (w : World) :
  fold_left (fun acc line => log line acc) lines w
  = mkWorld (ui w) (attendance w) (clock w) (mounted w) (srcObject w)
      (intervalRef w) (timers w) (nextHandle w) (ticks w) (fetches w)
      (console w ++ lines).
Proof.
  revert w. induction lines as [|l lines IH]; intros w; simpl.
  - rewrite app_nil_r. now destruct w.
  - rewrite IH. simpl. now rewrite <- app_assoc.
Qed.

(** ** The loop over the detections of a frame *)

Lemma forLoop_world (c : Closure) (labels : list string) (w : World) :
  let w' := fst (forLoop c labels w) in
  attendance w' = attendance w /\ timers w' = timers w /\ ticks w' = ticks w
  /\ fetches w' = fetches w /\ clock w' = clock w /\ mounted w' = mounted w
  /\ intervalRef w' = intervalRef w.
Proof.
  induction labels as [|l labels IH]; simpl.
  - repeat split.
  - destruct (negb (l =? "unknown") && negb (includes (c_recognizedStudents c) l));
      simpl; [repeat split | exact IH].
Qed.

Lemma forLoop_parks (c : Closure) (labels : list string) (w w' : World)
    (studentId : string) (rest : list string) :
  forLoop c labels w = (w', Some (studentId, rest)) ->
  studentId <> "unknown" /\ ~ In studentId (c_recognizedStudents c).
Proof.
  induction labels as [|l labels IH]; simpl; [discriminate|].
  destruct (negb (l =? "unknown")) eqn:U; simpl.
  - destruct (includes (c_recognizedStudents c) l) eqn:I; simpl.
    + exact IH.
    + intros [= _ -> _]. split.
      * apply negb_true_iff, String.eqb_neq in U. exact U.
      * now apply includes_false.
  - exact IH.
Qed.


(** ** Callbacks created when a student was already recognized *)

Lemma settle_forLoop_shields (s : string) (k : nat) (c : Closure)
    (labels : list string) (w : World) :
  In s (c_recognizedStudents c) -> shields s w ->
  shields s (settle k c (forLoop c labels w))
  /\ attendance (settle k c (forLoop c labels w)) = attendance w.
Proof.
  intros Hs [Htm Htk].
  pose proof (forLoop_world c labels w) as W.
  destruct (forLoop c labels w) as [w' [[studentId rest]|]] eqn:E;
    simpl in W; destruct W as (Ha & Ht & Hk & _); simpl.
  - split; [split|assumption]; simpl.
    + rewrite Ht. exact Htm.
    + intros t Hin. apply replaceAt_In in Hin as [-> | Hin].
      * simpl. split; [assumption|].
        intros sid r [= <- _]. apply forLoop_parks in E as [_ E].
        intros ->. contradiction.
      * rewrite Hk in Hin. auto.
  - split; [split|assumption]; simpl.
    + rewrite Ht. exact Htm.
    + intros t Hin. apply removeAt_In in Hin. rewrite Hk in Hin. auto.
Qed.

Lemma step_shields (s : string) (w : World) (e : Event) :
  shields s w ->
  shields s (step w e) /\ rowsOf s (attendance (step w e)) = rowsOf s (attendance w).
Proof.
  intros Sh. pose proof Sh as [Htm Htk].
  destruct e as [us | h ready | k r | k r | j r]; simpl.
  - split; [exact Sh | reflexivity].
  - unfold timerFired. destruct (lookupTimer h (timers w)) as [c|] eqn:L;
      [|split; [exact Sh | reflexivity]].
    destruct (mounted w && ready); [|split; [exact Sh | reflexivity]].
    split; [split|reflexivity]; simpl; [exact Htm|].
    intros t Hin. apply in_app_or in Hin as [Hin | [<- | []]]; [auto|].
    simpl. split; [|discriminate]. eapply Htm, lookupTimer_In, L.
  - unfold detectResolved.
    destruct (nth_error (ticks w) k) as [[c [|sid rest]]|] eqn:N;
      try (split; [exact Sh | reflexivity]).
    apply nth_error_In, Htk in N as [Hc _]. simpl in Hc.
    destruct r as [labels|].
    + destruct (settle_forLoop_shields s k c labels w Hc Sh) as [S1 S2].
      split; [exact S1 | now rewrite S2].
    + split; [split|reflexivity]; simpl; [exact Htm|].
      intros t Hin. apply removeAt_In in Hin. auto.
  - unfold insertResolved.
    destruct (nth_error (ticks w) k) as [[c [|sid rest]]|] eqn:N;
      try (split; [exact Sh | reflexivity]).
    apply nth_error_In, Htk in N as [Hc Hne]. simpl in Hc, Hne.
    specialize (Hne sid rest eq_refl).
    match goal with
    | |- context [settle k c (forLoop c rest ?w1)] =>
        assert (Sh1 : shields s w1 /\ rowsOf s (attendance w1) = rowsOf s (attendance w))
    end.
    { destruct r as [|m|m]; simpl; (split; [exact Sh|]); try reflexivity.
      rewrite rowsOf_app. simpl.
      apply String.eqb_neq in Hne. rewrite Hne. apply app_nil_r. }
    destruct Sh1 as [Sh1 R1].
    destruct (settle_forLoop_shields s k c rest _ Hc Sh1) as [S1 S2].
    split; [exact S1 | now rewrite S2].
  - unfold fetchResolved.
    destruct (nth_error (fetches w) j) as [[c d]|]; [|split; [exact Sh | reflexivity]].
    destruct r; split; try exact Sh; reflexivity.
Qed.

Lemma run_shields (s : string) (evs : list Event) (w : World) :
  shields s w ->
  shields s (run evs w) /\ rowsOf s (attendance (run evs w)) = rowsOf s (attendance w).
Proof.
  revert w. induction evs as [|e evs IH]; intros w Sh; simpl.
  - split; [exact Sh | reflexivity].
  - destruct (step_shields s w e Sh) as [S1 R1].
    destruct (IH _ S1) as [S2 R2]. split; [exact S2 | now rewrite R2].
Qed.

Lemma startFaceRecognition_shields (s : string) (photo : Student.t -> PhotoOutcome)
    (w : World) :
  timers w = [] -> ticks w = [] -> In s (recognizedStudents (ui w)) ->
  shields s (startFaceRecognition photo w)
  /\ attendance (startFaceRecognition photo w) = attendance w.
Proof.
  intros Htm Htk Hs.
  assert (Sh : shields s w).
  { split; [rewrite Htm | rewrite Htk]; intros; contradiction. }
  unfold startFaceRecognition.
  destruct (negb (isWebcamActive (ui w)) || negb (mounted w)
            || (List.length (students (ui w)) =? 0)%nat); [now split|].
  rewrite logs_world.
  destruct (List.length (validDescriptors photo (students (ui w))) =? 0)%nat; simpl.
  - split; [split|reflexivity]; simpl; [rewrite Htm | rewrite Htk]; intros; contradiction.
  - split; [split|reflexivity]; simpl.
    + rewrite Htm. intros h c [[= <- <-] | []]. exact Hs.
    + rewrite Htk. intros; contradiction.
Qed.

(** ** The recognized set and the table *)

Lemma inSync_spec (w : World) :
  inSync w = true ->
  forall x, includes (recognizedStudents (ui w)) x
            = hasPresent x (course (ui w)) (isoDate (clock w)) (attendance w).
Proof.
  unfold inSync. intros H x. apply andb_prop in H as [H1 H2].
  rewrite forallb_forall in H1, H2.
  destruct (hasPresent x (course (ui w)) (isoDate (clock w)) (attendance w)) eqn:P.
  - apply hasPresent_spec in P as [r [Hin [Hs [Hp Hw]]]]. subst x.
    apply H2, filter_In. split; [assumption|]. now rewrite Hp, Hw.
  - destruct (includes (recognizedStudents (ui w)) x) eqn:I; [|reflexivity].
    apply includes_In, H1 in I. congruence.
Qed.

Lemma hasPresent_absentRecords (x c : string) (d : Z) (s : State) (now : Z) :
  hasPresent x c d (absentRecords s now) = false.
Proof.
  unfold absentRecords, hasPresent.
  induction (absentStudentIds s) as [|a l IH]; simpl; [reflexivity|].
  rewrite IH. now rewrite andb_false_r.
Qed.



Lemma filter_none {A} (f : A -> bool) (l : list A) :
  (forall x, In x l -> f x = false) -> filter f l = [].
Proof.
  induction l as [|a l IH]; simpl; intros H; [reflexivity|].
  rewrite (H a (or_introl eq_refl)). apply IH. auto.
Qed.

Lemma markAbsentStudents_attendance (w : World) :
  attendance (markAbsentStudents Inserted w)
  = attendance w ++ absentRecords (ui w) (clock w).
Proof.
  unfold markAbsentStudents, absentRecords.
  destruct (absentStudentIds (ui w)) as [|a l]; simpl; [now rewrite app_nil_r | reflexivity].
Qed.




Lemma includes_presentIds (x c : string) (d : Z) (table : list Attendance.row) :
  includes (presentIds (queryAttendance table c d)) x = hasPresent x c d table.
Proof.
  destruct (hasPresent x c d table) eqn:P.
  - now apply includes_In, presentIds_query.
  - apply includes_false. rewrite presentIds_query. congruence.
Qed.

(** A close whose insert is accepted, then the refresh it sends
    (parked behind the queries already pending) resolving, then some
    time passing. *)
Lemma close_then_refresh (w : World) (dt : N) :
  let w1 := run [FetchDone (List.length (fetches w)) QueryOk; Elapse dt]
              (markAbsentStudents Inserted w) in
  attendance w1 = attendance w ++ absentRecords (ui w) (clock w)
  /\ students (ui w1) = students (ui w)
  /\ course (ui w1) = course (ui w)
  /\ clock w1 = (clock w + Z.of_N dt)%Z
  /\ recognizedStudents (ui w1)
     = (if (List.length (absentStudentIds (ui w)) =? 0)%nat
        then recognizedStudents (ui w)
        else presentIds
               (queryAttendance (attendance w ++ absentRecords (ui w) (clock w))
                  (course (ui w)) (isoDate (clock w)))).
Proof.
  unfold markAbsentStudents, absentRecords.
  destruct (List.length (absentStudentIds (ui w)) =? 0)%nat eqn:E; simpl.
  - apply Nat.eqb_eq, length_zero_iff_nil in E. rewrite E. simpl.
    unfold fetchResolved. simpl.
    replace (nth_error (fetches w) (List.length (fetches w))) with (@None (string * Z))
      by (symmetry; apply nth_error_None; lia).
    simpl. rewrite app_nil_r. repeat split.
  - unfold fetchResolved. simpl.
    rewrite nth_error_app2, Nat.sub_diag by lia. simpl. repeat split.
Qed.

(** C5 (as the code has it). Completing attendance a second time,
    after the first completion and its refresh: when the first
    completion found no absentee the second changes nothing; otherwise
    the second appends an absent row for every roster member without a
    present row of the course on the day of the first completion,
    whatever absent rows there are.  When the recognized set was in
    step with today's present rows at the first completion, these are
    the students the first completion marked absent, each is marked
    once more, and the table is left unchanged only when no roster
    member is absent. *)
Theorem second_close_repeats_absent_rows :
  forall (w : World) (dt : N),
    attendance
      (run [FetchDone (List.length (fetches w)) QueryOk; Elapse dt]
         (markAbsentStudents Inserted w))
    = attendance w ++ absentRecords (ui w) (clock w)
    /\ (absentStudentIds (ui w) = [] ->
        attendance
          (markAbsentStudents Inserted
             (run [FetchDone (List.length (fetches w)) QueryOk; Elapse dt]
                (markAbsentStudents Inserted w)))
        = attendance
            (run [FetchDone (List.length (fetches w)) QueryOk; Elapse dt]
               (markAbsentStudents Inserted w)))
    /\ (absentStudentIds (ui w) <> [] ->
        attendance
          (markAbsentStudents Inserted
             (run [FetchDone (List.length (fetches w)) QueryOk; Elapse dt]
                (markAbsentStudents Inserted w)))
        = attendance w ++ absentRecords (ui w) (clock w)
            ++ map (fun m => Attendance.mk (Student.id m) (course (ui w)) absent
                               (clock w + Z.of_N dt)%Z)
                 (filter (fun m => negb (hasPresent (Student.id m) (course (ui w))
                                           (isoDate (clock w)) (attendance w)))
                    (students (ui w))))
    /\ (inSync w = true ->
        attendance
          (markAbsentStudents Inserted
             (run [FetchDone (List.length (fetches w)) QueryOk; Elapse dt]
                (markAbsentStudents Inserted w)))
        = attendance w ++ absentRecords (ui w) (clock w)
            ++ absentRecords (ui w) (clock w + Z.of_N dt)%Z
        /\ (attendance
              (markAbsentStudents Inserted
                 (run [FetchDone (List.length (fetches w)) QueryOk; Elapse dt]
                    (markAbsentStudents Inserted w)))
            = attendance
                (run [FetchDone (List.length (fetches w)) QueryOk; Elapse dt]
                   (markAbsentStudents Inserted w))
            <-> absentStudentIds (ui w) = [])).
Proof.
  intros w dt.
  destruct (close_then_refresh w dt) as (H1 & Hst & Hc & Hk & Hr).
  set (w1 := run [FetchDone (List.length (fetches w)) QueryOk; Elapse dt]
               (markAbsentStudents Inserted w)) in *.
  assert (Hempty : absentStudentIds (ui w) = [] -> absentStudentIds (ui w1) = []).
  { intros E. unfold absentStudentIds at 1. rewrite Hst, Hr, E. simpl. exact E. }
  assert (Hsome : absentStudentIds (ui w) <> [] ->
            absentStudentIds (ui w1)
            = map Student.id
                (filter (fun m => negb (hasPresent (Student.id m) (course (ui w))
                                          (isoDate (clock w)) (attendance w)))
                   (students (ui w)))).
  { intros E. unfold absentStudentIds at 1. rewrite Hst, Hr.
    destruct (List.length (absentStudentIds (ui w)) =? 0)%nat eqn:L.
    - apply Nat.eqb_eq, length_zero_iff_nil in L. contradiction.
    - f_equal. apply filter_ext. intros a.
      now rewrite includes_presentIds, hasPresent_app, hasPresent_absentRecords,
        orb_false_r. }
  split; [exact H1|]. split; [|split].
  - intros E. rewrite markAbsentStudents_attendance. unfold absentRecords.
    rewrite (Hempty E). simpl. apply app_nil_r.
  - intros E. rewrite markAbsentStudents_attendance, H1, <- app_assoc.
    unfold absentRecords at 2. rewrite (Hsome E), Hc, Hk, map_map. reflexivity.
  - intros Sy. pose proof (inSync_spec w Sy) as Hs.
    assert (Hids : absentStudentIds (ui w1) = absentStudentIds (ui w)).
    { destruct (Nat.eqb_spec (List.length (absentStudentIds (ui w))) 0) as [L|L].
      - apply length_zero_iff_nil in L. rewrite L. now apply Hempty.
      - rewrite Hsome by (intros E; apply L; now rewrite E).
        unfold absentStudentIds. f_equal. apply filter_ext. intros m.
        now rewrite Hs. }
    assert (H2 : absentRecords (ui w1) (clock w1)
                 = absentRecords (ui w) (clock w + Z.of_N dt)%Z).
    { unfold absentRecords. now rewrite Hids, Hc, Hk. }
    rewrite markAbsentStudents_attendance, H2. split.
    + now rewrite H1, <- app_assoc.
    + split.
      * intros E. rewrite <- (app_nil_r (attendance w1)) in E at 2.
        apply app_inv_head in E. unfold absentRecords in E.
        now apply map_eq_nil in E.
      * intros E. unfold absentRecords. rewrite E. simpl. apply app_nil_r.
Qed.

(** C5 (as the code has it) on the classroom. *)
Lemma second_close_repeats_absent_rows_witness :
  attendance Sample.closedTwice
  = attendance Sample.afterAlice
      ++ absentRecords (ui Sample.afterAlice) (clock Sample.afterAlice)
      ++ absentRecords (ui Sample.afterAlice) (clock Sample.afterAlice + 1000000)%Z.
Proof.
  destruct (second_close_repeats_absent_rows Sample.afterAlice 1000000%N)
    as (_ & _ & _ & H).
  destruct H as [H _]; [reflexivity | exact H].
Defined.

(** C5 as stated fails: Alice is present, Bob is marked absent by the
    first completion; the second completion changes the table and
    leaves Bob with two absent rows for the day. *)
Lemma second_close_is_not_a_no_op :
  attendance Sample.closedTwice <> attendance Sample.closedOnce
  /\ List.length (rowsFor absent "id-bob" "CS101" 20000 (attendance Sample.closedTwice)) = 2%nat
  /\ List.length (rowsFor absent "id-bob" "CS101" 20000 (attendance Sample.closedOnce)) = 1%nat.
Proof.
  split; [|split; reflexivity].
  intros H. apply (f_equal (@List.length _)) in H. vm_compute in H. discriminate.
Qed.

(** ** Across sessions of one day *)




(** ** Sampling ticks *)

Lemma timerFired_keeps (w : World) (h : nat) (ready : bool) :
  timers (timerFired h ready w) = timers w
  /\ mounted (timerFired h ready w) = mounted w.
Proof.
  unfold timerFired. destruct (lookupTimer h (timers w)); [|now split].
  destruct (mounted w && ready); now split.
Qed.

(** C6 (as the code has it). A firing of the timer is skipped only
    when the video has no ready frame; with a ready frame it starts a
    run of the callback, parked at the detection, whatever runs are
    still parked: [n] firings in a row leave [n] more runs in
    flight. *)
Theorem every_firing_starts_a_tick :
  forall (w : World) (h : nat) (c : Closure) (n : nat),
    lookupTimer h (timers w) = Some c ->
    mounted w = true ->
    ticks (step w (TimerFire h true)) = ticks w ++ [mkTick c AwaitDetect]
    /\ ticks (step w (TimerFire h false)) = ticks w
    /\ List.length (ticks (run (repeat (TimerFire h true) n) w))
       = (List.length (ticks w) + n)%nat.
Proof.
  intros w h c n L M. split; [|split].
  - simpl. unfold timerFired. now rewrite L, M.
  - simpl. unfold timerFired. now rewrite L, M.
  - revert w L M. induction n as [|n IH]; intros w L M; simpl.
    + now rewrite Nat.add_0_r.
    + destruct (timerFired_keeps w h true) as [Ht Hm].
      rewrite IH; [| now rewrite Ht | now rewrite Hm].
      unfold timerFired. rewrite L, M. simpl.
      rewrite length_app. simpl. lia.
Qed.

(** C6 (as the code has it) on the classroom: three firings, three
    runs in flight. *)
Lemma every_firing_starts_a_tick_witness :
  List.length (ticks (run (repeat (TimerFire 1 true) 3) Sample.recognising)) = 3%nat.
Proof.
  destruct (every_firing_starts_a_tick Sample.recognising 1
              (mkClosure [] "CS101" [Sample.alice; Sample.bob]
                 (validDescriptors Sample.everyFace [Sample.alice; Sample.bob])) 3)
    as (_ & _ & H).
  - reflexivity.
  - reflexivity.
  - exact H.
Defined.

(** C6 as stated fails: the timer fires twice before the first
    detection resolves, and two runs of the callback are parked at
    [detectAllFaces] together. *)
Lemma two_ticks_in_flight :
  map parked (ticks (run [TimerFire 1 true; TimerFire 1 true] Sample.recognising))
  = [AwaitDetect; AwaitDetect]
  /\ ~ (forall evs : list Event,
          (List.length (ticks (run evs Sample.recognising)) <= 1)%nat).
Proof.
  split; [reflexivity|].
  intros H. specialize (H [TimerFire 1 true; TimerFire 1 true]).
  vm_compute in H. lia.
Qed.

(** ** Building the gallery *)

Lemma validDescriptors_labels (photo : Student.t -> PhotoOutcome)
    (roster : list Student.t) :
  map label (validDescriptors photo roster)
  = map Student.id (filter (fun s => negb (excluded photo s)) roster).
Proof.
  unfold validDescriptors, describe, excluded.
  induction roster as [|a l IH]; simpl; [reflexivity|].
  destruct (photo a); simpl; now rewrite ?IH.
Qed.

Lemma complaints_count (photo : Student.t -> PhotoOutcome) (roster : list Student.t) :
  List.length (nonNull (map (complaint photo) roster))
  = List.length (filter (excluded photo) roster).
Proof.
  induction roster as [|a l IH]; simpl; [reflexivity|].
  unfold complaint at 1, excluded at 1.
  destruct (photo a); simpl; congruence.
Qed.

Lemma guard_passes (w : World) :
  isWebcamActive (ui w) = true -> mounted w = true -> students (ui w) <> [] ->
  negb (isWebcamActive (ui w)) || negb (mounted w)
  || (List.length (students (ui w)) =? 0)%nat = false.
Proof.
  intros -> -> H. destruct (students (ui w)); [congruence | reflexivity].
Qed.

(** C7 (as the code has it). Whatever photos fail, the build never
    aborts: the gallery holds, in roster order, one entry with one
    descriptor for each member whose photo shows a face; each excluded
    member costs one console line and nothing else.  With a gallery
    that is not empty the recognition starts on it and the page's error
    stays empty: the exclusions reach the console only. *)
Theorem gallery_skips_failed_photos :
  forall (w : World) (photo : Student.t -> PhotoOutcome),
    isWebcamActive (ui w) = true ->
    mounted w = true ->
    validDescriptors photo (students (ui w)) <> [] ->
    map label (validDescriptors photo (students (ui w)))
    = map Student.id (filter (fun s => negb (excluded photo s)) (students (ui w)))
    /\ (List.length (validDescriptors photo (students (ui w)))
        + List.length (filter (excluded photo) (students (ui w))))%nat
       = List.length (students (ui w))
    /\ timers (startFaceRecognition photo w)
       = timers w ++
           [(nextHandle w,
             mkClosure (recognizedStudents (ui w)) (course (ui w)) (students (ui w))
               (validDescriptors photo (students (ui w))))]
    /\ console (startFaceRecognition photo w)
       = console w ++ nonNull (map (complaint photo) (students (ui w)))
    /\ List.length (nonNull (map (complaint photo) (students (ui w))))
       = List.length (filter (excluded photo) (students (ui w)))
    /\ ui (startFaceRecognition photo w)
       = setError None (setIsCapturing true (ui w)).
Proof.
  intros w photo Hw Hm Hg.
  assert (Hr : students (ui w) <> []).
  { intros E. apply Hg. now rewrite E. }
  split; [apply validDescriptors_labels|]. split.
  { rewrite <- (length_map label), validDescriptors_labels, length_map.
    rewrite Nat.add_comm. clear. induction (students (ui w)) as [|a l IH]; simpl; [reflexivity|].
    destruct (excluded photo a); simpl; lia. }
  unfold startFaceRecognition. rewrite (guard_passes w Hw Hm Hr), logs_world.
  destruct (validDescriptors photo (students (ui w))) as [|g gs] eqn:E; [congruence|].
  simpl. repeat split. apply complaints_count.
Qed.

(** C7 (as the code has it) on a roster of three with Bob's photo
    showing no face. *)
Lemma gallery_skips_failed_photos_witness :
  map label (validDescriptors Sample.bobFaceless [Sample.alice; Sample.bob; Sample.carol])
  = ["id-alice"; "id-carol"]
  /\ console (startFaceRecognition Sample.bobFaceless
                (Sample.classroom [Sample.alice; Sample.bob; Sample.carol]))
     = ["No face detected in the reference image for Bob"].
Proof.
  destruct (gallery_skips_failed_photos
              (Sample.classroom [Sample.alice; Sample.bob; Sample.carol])
              Sample.bobFaceless)
    as (H1 & _ & _ & H4 & _).
  - reflexivity.
  - reflexivity.
  - discriminate.
  - split; [exact H1 | exact H4].
Defined.

(** C7 as stated fails in its last part: with Bob's photo showing no
    face the gallery of the roster of three has two entries, and the
    state the page shows is the one it shows when every photo is
    good; the page's error is empty and the only trace of the
    exclusion is a console line. *)
Lemma exclusions_are_not_surfaced :
  Sample.galleryOf 1
    (startFaceRecognition Sample.bobFaceless
       (Sample.classroom [Sample.alice; Sample.bob; Sample.carol]))
  = Some ["id-alice"; "id-carol"]
  /\ ui (startFaceRecognition Sample.bobFaceless
           (Sample.classroom [Sample.alice; Sample.bob; Sample.carol]))
     = ui (startFaceRecognition Sample.everyFace
             (Sample.classroom [Sample.alice; Sample.bob; Sample.carol]))
  /\ error (ui (startFaceRecognition Sample.bobFaceless
                  (Sample.classroom [Sample.alice; Sample.bob; Sample.carol])))
     = None
  /\ console (startFaceRecognition Sample.bobFaceless
                (Sample.classroom [Sample.alice; Sample.bob; Sample.carol]))
     = ["No face detected in the reference image for Bob"].
Proof. do 3 (split; [vm_compute; reflexivity|]). vm_compute. reflexivity. Qed.

(** ** Starting *)





(** ** The same face, tick after tick *)

Lemma run_app (a b : list Event) (w : World) :
  run (a ++ b) w = run b (run a w).
Proof. apply fold_left_app. Qed.

(** One tick with Alice in the frame, for a callback that was created
    before Alice was recognized: a present row is appended, and the
    callback is as it was. *)
Lemma aliceTick_inserts (w : World) (c : Closure) :
  lookupTimer 1 (timers w) = Some c ->
  includes (c_recognizedStudents c) "id-alice" = false ->
  mounted w = true -> ticks w = [] -> fetches w = [] ->
  attendance (run Sample.aliceTick w)
  = attendance w ++ [Attendance.mk "id-alice" (c_course c) present (clock w)]
  /\ timers (run Sample.aliceTick w) = timers w
  /\ mounted (run Sample.aliceTick w) = true
  /\ ticks (run Sample.aliceTick w) = []
  /\ fetches (run Sample.aliceTick w) = [].
Proof.
  intros L I M T F.
  destruct w as [u a ck m so ir ts nh tk f cs]. simpl in *. subst.
  unfold Sample.aliceTick, run. simpl.
  unfold timerFired. simpl. rewrite L. simpl.
  unfold detectResolved. simpl. rewrite I. simpl.
  unfold insertResolved. simpl.
  unfold fetchResolved. simpl. repeat split; assumption.
Qed.

Lemma sameFace_rows (n : nat) (w : World) (c : Closure) :
  lookupTimer 1 (timers w) = Some c ->
  includes (c_recognizedStudents c) "id-alice" = false ->
  mounted w = true -> ticks w = [] -> fetches w = [] ->
  List.length (filter isPresent (rowsOf "id-alice" (attendance (run (Sample.sameFace n) w))))
  = (List.length (filter isPresent (rowsOf "id-alice" (attendance w))) + n)%nat.
Proof.
  revert w. induction n as [|n IH]; intros w L I M T F.
  - simpl. now rewrite Nat.add_0_r.
  - change (Sample.sameFace (S n)) with (Sample.aliceTick ++ Sample.sameFace n).
    destruct (aliceTick_inserts w c L I M T F) as (Ha & Ht & Hm & Hk & Hf).
    rewrite run_app, (IH _); try assumption; [|now rewrite Ht].
    rewrite Ha, rowsOf_app, filter_app, length_app. simpl. lia.
Qed.

(** C4 at the failing input. From the start of recognition, [n]
    sampling ticks that each detect Alice's face and match it insert
    [n] present rows for Alice, one per tick: the callback reads the
    recognized set of the render it was created in, in which Alice is
    not. *)
Theorem same_face_is_inserted_every_tick :
  forall n : nat,
    List.length
      (filter isPresent
         (rowsOf "id-alice" (attendance (run (Sample.sameFace n) Sample.recognising))))
    = n.
Proof.
  intros n.
  rewrite (sameFace_rows n Sample.recognising
             (mkClosure [] "CS101" [Sample.alice; Sample.bob]
                (validDescriptors Sample.everyFace [Sample.alice; Sample.bob])));
    reflexivity.
Qed.

(** C1 at the failing input. After the first tick Alice has a present
    row for CS101 today and the page's recognized set holds her; the
    callback of the running timer still holds the empty set it was
    created with, and the second tick inserts a second present row for
    the same student, course and day. *)
Theorem present_is_inserted_twice :
  hasPresent "id-alice" "CS101" 20000 (attendance (run Sample.aliceTick Sample.recognising))
  = true
  /\ recognizedStudents (ui (run Sample.aliceTick Sample.recognising)) = ["id-alice"]
  /\ option_map c_recognizedStudents
       (lookupTimer 1 (timers (run Sample.aliceTick Sample.recognising))) = Some []
  /\ rowsFor present "id-alice" "CS101" 20000
       (attendance (run (Sample.aliceTick ++ Sample.aliceTick) Sample.recognising))
     = [Attendance.mk "id-alice" "CS101" present Sample.noon;
        Attendance.mk "id-alice" "CS101" present (Sample.noon + 1000000)%Z].
Proof. do 3 (split; [vm_compute; reflexivity|]). vm_compute. reflexivity. Qed.

(** ** Enrolment *)

Lemma catch_cannot_see_filePath (s : StudentRegistration.State) :
  StudentRegistration.resolve "filePath"
    (("error", StudentRegistration.VObject) :: StudentRegistration.enclosingScope s)
  = None.
Proof. reflexivity. Qed.

(** Whatever the collaborators answer, a submit calls the photo store
    for the upload at most, and never for a removal. *)
Lemma handleSubmit_never_removes (b : StudentRegistration.Backend)
    (w : StudentRegistration.World) :
  StudentRegistration.storageCalls (fst (StudentRegistration.handleSubmit b w))
  = StudentRegistration.storageCalls w
  \/ exists path,
       StudentRegistration.storageCalls (fst (StudentRegistration.handleSubmit b w))
       = StudentRegistration.storageCalls w ++ [StudentRegistration.Upload path].
Proof.
  unfold StudentRegistration.handleSubmit.
  destruct (StudentRegistration.photo (StudentRegistration.ui w)) as [f|]; [|now left].
  destruct ((StudentRegistration.name (StudentRegistration.ui w) =? "")
            || (StudentRegistration.studentId (StudentRegistration.ui w) =? "")
            || (StudentRegistration.course (StudentRegistration.ui w) =? ""));
    [now left|].
  destruct (StudentRegistration.isModelLoading (StudentRegistration.ui w)); [now left|].
  unfold StudentRegistration.tryBlock, StudentRegistration.tryScope. simpl.
  unfold StudentRegistration.catchBlock. simpl.
  destruct (StudentRegistration.upload b); simpl;
    [|right; eexists; reflexivity].
  destruct (StudentRegistration.face b); simpl;
    try (right; eexists; reflexivity).
  destruct (StudentRegistration.insert b); simpl; right; eexists; reflexivity.
Qed.

(** C8 at the failing input. The upload succeeds and no face is found
    in the photo: the submit shows its error and inserts no student,
    but the [catch] clause cannot read [filePath], a [const] of the
    [try] block; it throws before the removal, the photo store is
    called for the upload only, and the uploaded photo stays in the
    bucket. *)
Theorem rollback_delete_is_not_called :
  StudentRegistration.storageCalls
    (fst (StudentRegistration.handleSubmit Enrolment.noFaceInPhoto Enrolment.filledForm))
  = [StudentRegistration.Upload "students/1728043200000.jpg"]
  /\ StudentRegistration.objects
       (fst (StudentRegistration.handleSubmit Enrolment.noFaceInPhoto Enrolment.filledForm))
     = ["students/1728043200000.jpg"]
  /\ StudentRegistration.studentsTable
       (fst (StudentRegistration.handleSubmit Enrolment.noFaceInPhoto Enrolment.filledForm))
     = []
  /\ StudentRegistration.error
       (StudentRegistration.ui
          (fst (StudentRegistration.handleSubmit Enrolment.noFaceInPhoto Enrolment.filledForm)))
     = Some "Failed to register student: No face detected in the image"
  /\ snd (StudentRegistration.handleSubmit Enrolment.noFaceInPhoto Enrolment.filledForm)
     = StudentRegistration.Thrown "ReferenceError: filePath is not defined".
Proof. do 4 (split; [vm_compute; reflexivity|]). vm_compute. reflexivity. Qed.

(** ** The matcher *)

Section MatcherFacts.

Variable distance : Descriptor -> Descriptor -> Q.

Lemma nearest_spec (live : Descriptor) (refs : list (string * Descriptor))
    (best : string * Q) :
  (FaceMatcher.nearest distance live best refs = best
   \/ exists l d, In (l, d) refs
                  /\ FaceMatcher.nearest distance live best refs = (l, distance live d))
  /\ (snd (FaceMatcher.nearest distance live best refs) <= snd best)%Q
  /\ (forall l d, In (l, d) refs ->
        (snd (FaceMatcher.nearest distance live best refs) <= distance live d)%Q).
Proof.
  revert best. induction refs as [|[l d] t IH]; intros best; simpl.
  - split; [now left|]. split; [apply Qle_refl | intros; contradiction].
  - set (best' := if Qle_bool (snd best) (distance live d)
                  then best else (l, distance live d)).
    assert (B : (snd best' <= snd best)%Q /\ (snd best' <= distance live d)%Q
                /\ (best' = best \/ best' = (l, distance live d))).
    { subst best'. destruct (Qle_bool (snd best) (distance live d)) eqn:E.
      - apply Qle_bool_iff in E. split; [apply Qle_refl|]. split; [exact E | now left].
      - simpl. split; [|split; [apply Qle_refl | now right]].
        apply Qlt_le_weak, Qnot_le_lt. intros H. apply Qle_bool_iff in H. congruence. }
    destruct B as (B1 & B2 & B3).
    destruct (IH best') as (I1 & I2 & I3). split; [|split].
    + destruct I1 as [I1 | [l' [d' [Hin I1]]]].
      * rewrite I1. destruct B3 as [-> | ->]; [now left|].
        right. exists l, d. split; [now left | reflexivity].
      * right. exists l', d'. split; [now right | exact I1].
    + eapply Qle_trans; eassumption.
    + intros l' d' [[= <- <-] | Hin].
      * eapply Qle_trans; eassumption.
      * exact (I3 l' d' Hin).
Qed.

(** C2. For a gallery with at least one reference embedding, the
    match is decided by a reference whose distance to the live
    embedding is smallest among all references: the match carries
    that distance, and its label is that reference's identity when
    the distance is at most the threshold (the case of equality
    included) and [unknown] when it is greater. *)
Theorem best_match_is_nearest_within_threshold :
  forall (threshold : Q) (gallery : list LabeledFaceDescriptors) (live : Descriptor),
    FaceMatcher.references gallery <> [] ->
    exists (identity : string) (reference : Descriptor),
      In (identity, reference) (FaceMatcher.references gallery)
      /\ (forall l d, In (l, d) (FaceMatcher.references gallery) ->
            (distance live reference <= distance live d)%Q)
      /\ FaceMatcher.findBestMatch distance threshold gallery live
         = Some (FaceMatcher.mkMatch
                   (if Qle_bool (distance live reference) threshold
                    then identity else "unknown")
                   (distance live reference))
      /\ ((distance live reference <= threshold)%Q ->
          option_map FaceMatcher.matchLabel
            (FaceMatcher.findBestMatch distance threshold gallery live)
          = Some identity)
      /\ ((distance live reference == threshold)%Q ->
          option_map FaceMatcher.matchLabel
            (FaceMatcher.findBestMatch distance threshold gallery live)
          = Some identity)
      /\ ((threshold < distance live reference)%Q ->
          option_map FaceMatcher.matchLabel
            (FaceMatcher.findBestMatch distance threshold gallery live)
          = Some "unknown").
Proof.
  intros threshold gallery live Hne.
  unfold FaceMatcher.findBestMatch.
  destruct (FaceMatcher.references gallery) as [|[l d] t] eqn:R; [congruence|].
  destruct (nearest_spec live t (l, distance live d)) as (N1 & N2 & N3).
  assert (W : exists identity reference,
             In (identity, reference) ((l, d) :: t)
             /\ FaceMatcher.nearest distance live (l, distance live d) t
                = (identity, distance live reference)).
  { destruct N1 as [N1 | [l' [d' [Hin N1]]]].
    - exists l, d. split; [now left | exact N1].
    - exists l', d'. split; [now right | exact N1]. }
  destruct W as [identity [reference [Hin E]]].
  exists identity, reference. rewrite E in *. simpl in *.
  split; [exact Hin|]. split.
  { intros l' d' [[= <- <-] | H]; [exact N2 | exact (N3 l' d' H)]. }
  split.
  { now destruct (Qle_bool (distance live reference) threshold). }
  split; [|split].
  - intros H. apply Qle_bool_iff in H. now rewrite H.
  - intros H. assert (H' : (distance live reference <= threshold)%Q)
      by (rewrite H; apply Qle_refl).
    apply Qle_bool_iff in H'. now rewrite H'.
  - intros H. destruct (Qle_bool (distance live reference) threshold) eqn:B;
      [|reflexivity].
    apply Qle_bool_iff in B. exfalso. eapply Qlt_not_le; eassumption.
Qed.

End MatcherFacts.

(** C2 on a gallery of two, the nearest reference at distance 0.6. *)
Lemma best_match_is_nearest_within_threshold_witness :
  exists (identity : string) (reference : Descriptor),
    In (identity, reference)
      (FaceMatcher.references
         [mkLabeled "id-alice" [[(6 # 10)%Q]]; mkLabeled "id-bob" [[(2 # 1)%Q]]])
    /\ FaceMatcher.findBestMatch Sample.gap FaceMatcher.distanceThreshold
         [mkLabeled "id-alice" [[(6 # 10)%Q]]; mkLabeled "id-bob" [[(2 # 1)%Q]]] [(0 # 1)%Q]
       = Some (FaceMatcher.mkMatch
                 (if Qle_bool (Sample.gap [(0 # 1)%Q] reference) FaceMatcher.distanceThreshold
                  then identity else "unknown")
                 (Sample.gap [(0 # 1)%Q] reference)).
Proof.
  destruct (best_match_is_nearest_within_threshold Sample.gap
              FaceMatcher.distanceThreshold
              [mkLabeled "id-alice" [[(6 # 10)%Q]]; mkLabeled "id-bob" [[(2 # 1)%Q]]]
              [(0 # 1)%Q])
    as [identity [reference (H1 & _ & H3 & _)]].
  - discriminate.
  - exists identity, reference. split; [exact H1 | exact H3].
Defined.

(** * Further properties of the attendance page *)

(** ** What the event loop does to the table *)

Lemma settle_forLoop_world (k : nat) (c : Closure) (labels : list string) (w : World) :
  attendance (settle k c (forLoop c labels w)) = attendance w
  /\ clock (settle k c (forLoop c labels w)) = clock w
  /\ timers (settle k c (forLoop c labels w)) = timers w
  /\ fetches (settle k c (forLoop c labels w)) = fetches w
  /\ mounted (settle k c (forLoop c labels w)) = mounted w.
Proof.
  pose proof (forLoop_world c labels w) as W.
  destruct (forLoop c labels w) as [w' [[studentId rest]|]];
    simpl in *; destruct W as (Ha & Ht & Hk & Hf & Hc & Hm & Hi); auto.
Qed.

(** The rows one event appends: none, or one present row stamped with
    the clock. *)
Lemma step_appends (w : World) (e : Event) :
  (clock w <= clock (step w e))%Z
  /\ (attendance (step w e) = attendance w
      \/ exists studentId courseName,
           attendance (step w e)
           = attendance w ++ [Attendance.mk studentId courseName present (clock w)]).
Proof.
  assert (Same : forall w' : World,
             clock w' = clock w -> attendance w' = attendance w ->
             (clock w <= clock w')%Z
             /\ (attendance w' = attendance w
                 \/ exists studentId courseName,
                      attendance w'
                      = attendance w ++ [Attendance.mk studentId courseName present (clock w)])).
  { intros w' Hc Ha. split; [lia | now left]. }
  destruct e as [us | h ready | k r | k r | j r]; simpl.
  - split; [lia | now left].
  - unfold timerFired. destruct (lookupTimer h (timers w)); [|now apply Same].
    destruct (mounted w && ready); now apply Same.
  - unfold detectResolved.
    destruct (nth_error (ticks w) k) as [[c [|sid rest]]|]; try now apply Same.
    destruct r as [labels|]; [|now apply Same].
    destruct (settle_forLoop_world k c labels w) as (Ha & Hc & _). now apply Same.
  - unfold insertResolved.
    destruct (nth_error (ticks w) k) as [[c [|sid rest]]|]; try now apply Same.
    match goal with
    | |- context [settle k c (forLoop c rest ?w1)] =>
        destruct (settle_forLoop_world k c rest w1) as (Ha & Hc & _)
    end.
    rewrite Ha, Hc. destruct r as [|m|m]; simpl; (split; [lia|]);
      [right; eauto | now left | now left].
  - unfold fetchResolved.
    destruct (nth_error (fetches w) j) as [[c d]|]; [|now apply Same].
    destruct r; now apply Same.
Qed.

(** X1. Whatever events happen and in whatever order, the attendance
    table only grows at its end, and every row the event loop appends
    is a present row stamped at or after the starting clock: the event
    loop never writes an absent row and never rewrites or deletes a
    row. *)
Theorem events_only_append_present_rows :
  forall (evs : list Event) (w : World),
    exists added : list Attendance.row,
      attendance (run evs w) = attendance w ++ added
      /\ (forall r, In r added ->
            Attendance.status r = present
            /\ (clock w <= Attendance.created_at r <= clock (run evs w))%Z)
      /\ (clock w <= clock (run evs w))%Z.
Proof.
  induction evs as [|e evs IH]; intros w; simpl.
  - exists []. rewrite app_nil_r. split; [reflexivity|]. split; [intros r []|lia].
  - destruct (step_appends w e) as [Hc Hs].
    destruct (IH (step w e)) as [added (Ha & Hr & Hk)].
    destruct Hs as [Hs | [sid [cn Hs]]]; rewrite Hs in Ha.
    + exists added. split; [exact Ha|]. split; [|unfold run in *; lia].
      intros r Hin. destruct (Hr r Hin) as [S1 S2]. split; [exact S1|]. unfold run in *. lia.
    + exists (Attendance.mk sid cn present (clock w) :: added).
      rewrite <- app_assoc in Ha. split; [exact Ha|]. split; [|unfold run in *; lia].
      intros r [<- | Hin]; simpl.
      * split; [reflexivity|]. unfold run in *. lia.
      * destruct (Hr r Hin) as [S1 S2]. split; [exact S1|]. unfold run in *. lia.
Qed.

Lemma settle_forLoop_noUnknown (k : nat) (c : Closure) (labels : list string) (w : World) :
  noUnknownParked w -> noUnknownParked (settle k c (forLoop c labels w)).
Proof.
  intros H t rest Hin.
  pose proof (forLoop_world c labels w) as W.
  destruct (forLoop c labels w) as [w' [[studentId rest']|]] eqn:E;
    simpl in *; destruct W as (_ & _ & Hk & _).
  - apply replaceAt_In in Hin as [-> | Hin].
    + simpl. intros [= -> _]. apply forLoop_parks in E as [E _]. congruence.
    + rewrite Hk in Hin. now apply H.
  - apply removeAt_In in Hin. rewrite Hk in Hin. now apply H.
Qed.

Lemma step_noUnknown (w : World) (e : Event) :
  noUnknownParked w ->
  noUnknownParked (step w e)
  /\ rowsOf "unknown" (attendance (step w e)) = rowsOf "unknown" (attendance w).
Proof.
  intros H. destruct e as [us | h ready | k r | k r | j r]; simpl.
  - now split.
  - unfold timerFired. destruct (lookupTimer h (timers w)) as [c|]; [|now split].
    destruct (mounted w && ready); [|now split]. split; [|reflexivity].
    intros t rest Hin. simpl in Hin. apply in_app_or in Hin as [Hin | [<- | []]].
    + now apply H.
    + discriminate.
  - unfold detectResolved.
    destruct (nth_error (ticks w) k) as [[c [|sid rest]]|] eqn:N; try now split.
    destruct r as [labels|].
    + split; [now apply settle_forLoop_noUnknown|].
      now destruct (settle_forLoop_world k c labels w) as (-> & _).
    + split; [|reflexivity]. intros t rest Hin. simpl in Hin.
      apply removeAt_In in Hin. now apply H.
  - unfold insertResolved.
    destruct (nth_error (ticks w) k) as [[c [|sid rest]]|] eqn:N; try now split.
    assert (Hne : sid <> "unknown").
    { intros ->. apply nth_error_In in N. exact (H _ rest N eq_refl). }
    match goal with
    | |- context [settle k c (forLoop c rest ?w1)] =>
        assert (H1 : noUnknownParked w1
                     /\ rowsOf "unknown" (attendance w1) = rowsOf "unknown" (attendance w))
    end.
    { destruct r as [|m|m]; simpl; (split; [exact H|]); try reflexivity.
      rewrite rowsOf_app. simpl. apply String.eqb_neq in Hne. rewrite Hne. apply app_nil_r. }
    destruct H1 as [H1 R1]. split; [now apply settle_forLoop_noUnknown|].
    match goal with
    | |- context [settle k c (forLoop c rest ?w1)] =>
        destruct (settle_forLoop_world k c rest w1) as (-> & _)
    end.
    exact R1.
  - unfold fetchResolved. destruct (nth_error (fetches w) j) as [[c d]|]; [|now split].
    destruct r; now split.
Qed.

(** X2. The matcher's sentinel label is never written to the table: as
    long as no run of the callback is already parked at an insert for
    [unknown], no sequence of events adds a row whose student is
    [unknown], whatever labels the detections carry. *)
Theorem unknown_is_never_inserted :
  forall (evs : list Event) (w : World),
    noUnknownParked w ->
    rowsOf "unknown" (attendance (run evs w)) = rowsOf "unknown" (attendance w).
Proof.
  induction evs as [|e evs IH]; intros w H; simpl; [reflexivity|].
  destruct (step_noUnknown w e H) as [H1 R1]. unfold run in IH. now rewrite IH.
Qed.

(** X2 on the classroom: every face of two frames is unknown. *)
Lemma unknown_is_never_inserted_witness :
  rowsOf "unknown"
    (attendance
       (run [TimerFire 1 true; DetectDone 0 (Some ["unknown"; "id-bob"; "unknown"]);
             InsertDone 0 Inserted]
          Sample.recognising))
  = [].
Proof.
  apply (unknown_is_never_inserted
           [TimerFire 1 true; DetectDone 0 (Some ["unknown"; "id-bob"; "unknown"]);
            InsertDone 0 Inserted]
           Sample.recognising).
  intros t rest [].
Defined.

(** ** Timers *)

Lemma lookupTimer_app (h : nat) (a b : list (nat * Closure)) :
  lookupTimer h (a ++ b)
  = match lookupTimer h a with
    | Some c => Some c
    | None => lookupTimer h b
    end.
Proof.
  induction a as [|[h' c] a IH]; simpl; [reflexivity|].
  destruct (h' =? h)%nat; [reflexivity | exact IH].
Qed.

Lemma lookupTimer_cleared (h : nat) (ts : list (nat * Closure)) :
  lookupTimer h (filter (fun t => negb (fst t =? h)%nat) ts) = None.
Proof.
  induction ts as [|[h' c] ts IH]; simpl; [reflexivity|].
  destruct (h' =? h)%nat eqn:E; simpl; [exact IH|]. now rewrite E.
Qed.

Lemma lookupTimer_other (h h' : nat) (ts : list (nat * Closure)) :
  h <> h' ->
  lookupTimer h (filter (fun t => negb (fst t =? h')%nat) ts) = lookupTimer h ts.
Proof.
  intros Hne. induction ts as [|[g c] ts IH]; simpl; [reflexivity|].
  destruct (Nat.eqb_spec g h') as [->|Hg]; simpl.
  - destruct (Nat.eqb_spec h' h) as [E|_]; [congruence | exact IH].
  - destruct (g =? h)%nat; [reflexivity | exact IH].
Qed.

Lemma filter_fresh (n : nat) (ts : list (nat * Closure)) :
  (forall h c, In (h, c) ts -> (h < n)%nat) ->
  filter (fun t => negb (fst t =? n)%nat) ts = ts.
Proof.
  induction ts as [|[h c] ts IH]; simpl; intros H; [reflexivity|].
  destruct (Nat.eqb_spec h n) as [->|_]; simpl.
  - specialize (H n c (or_introl eq_refl)). lia.
  - f_equal. apply IH. intros h' c' Hin. eapply H. right. exact Hin.
Qed.

(** What a start that goes through leaves. *)
Lemma startFaceRecognition_started (photo : Student.t -> PhotoOutcome) (w : World) :
  isWebcamActive (ui w) = true ->
  mounted w = true ->
  validDescriptors photo (students (ui w)) <> [] ->
  timers (startFaceRecognition photo w)
  = timers w ++
      [(nextHandle w,
        mkClosure (recognizedStudents (ui w)) (course (ui w)) (students (ui w))
          (validDescriptors photo (students (ui w))))]
  /\ intervalRef (startFaceRecognition photo w) = Some (nextHandle w)
  /\ nextHandle (startFaceRecognition photo w) = S (nextHandle w)
  /\ ui (startFaceRecognition photo w) = setError None (setIsCapturing true (ui w))
  /\ mounted (startFaceRecognition photo w) = true
  /\ ticks (startFaceRecognition photo w) = ticks w
  /\ attendance (startFaceRecognition photo w) = attendance w.
Proof.
  intros Hw Hm Hg.
  assert (Hr : students (ui w) <> []).
  { intros E. apply Hg. now rewrite E. }
  unfold startFaceRecognition. rewrite (guard_passes w Hw Hm Hr), logs_world.
  destruct (validDescriptors photo (students (ui w))) as [|g gs] eqn:E; [congruence|].
  simpl. repeat split. exact Hm.
Qed.

Lemma startFaceRecognition_keeps (photo : Student.t -> PhotoOutcome) (w : World) :
  recognizedStudents (ui (startFaceRecognition photo w)) = recognizedStudents (ui w)
  /\ attendance (startFaceRecognition photo w) = attendance w
  /\ ticks (startFaceRecognition photo w) = ticks w
  /\ (timers (startFaceRecognition photo w) = timers w
      /\ intervalRef (startFaceRecognition photo w) = intervalRef w
      \/ timers (startFaceRecognition photo w)
         = timers w ++
             [(nextHandle w,
               mkClosure (recognizedStudents (ui w)) (course (ui w)) (students (ui w))
                 (validDescriptors photo (students (ui w))))]
         /\ intervalRef (startFaceRecognition photo w) = Some (nextHandle w)).
Proof.
  unfold startFaceRecognition.
  destruct (negb (isWebcamActive (ui w)) || negb (mounted w)
            || (List.length (students (ui w)) =? 0)%nat);
    [repeat split; left; split; reflexivity|].
  rewrite logs_world.
  destruct (List.length (validDescriptors photo (students (ui w))) =? 0)%nat;
    simpl; repeat split; [left | right]; split; reflexivity.
Qed.

(** startFaceRecognition as one step is its two parts with nothing in
    between, the photos settling in roster order. *)
Lemma startFaceRecognition_by_awaits (photo : Student.t -> PhotoOutcome) (w : World) :
  startFaceRecognition photo w
  = match startClicked w with
    | (w1, None) => w1
    | (w1, Some b) => photosSettled photo (students (ui w)) b w1
    end.
Proof.
  unfold startFaceRecognition, startClicked, photosSettled.
  now destruct (negb (isWebcamActive (ui w)) || negb (mounted w)
                || (List.length (students (ui w)) =? 0)%nat).
Qed.

(** The order in which the photos settle shows in the console only. *)
Lemma photosSettled_order (photo : Student.t -> PhotoOutcome)
    (settled settled' : list Student.t) (b : Build) (w : World) :
  ui (photosSettled photo settled b w) = ui (photosSettled photo settled' b w)
  /\ attendance (photosSettled photo settled b w)
     = attendance (photosSettled photo settled' b w)
  /\ timers (photosSettled photo settled b w) = timers (photosSettled photo settled' b w)
  /\ intervalRef (photosSettled photo settled b w)
     = intervalRef (photosSettled photo settled' b w)
  /\ nextHandle (photosSettled photo settled b w)
     = nextHandle (photosSettled photo settled' b w)
  /\ ticks (photosSettled photo settled b w) = ticks (photosSettled photo settled' b w)
  /\ fetches (photosSettled photo settled b w)
     = fetches (photosSettled photo settled' b w).
Proof.
  unfold photosSettled.
  destruct (List.length (validDescriptors photo (b_students b)) =? 0)%nat;
    simpl; rewrite !logs_world; repeat split.
Qed.

(** X3. The handler of the Start button sets the page capturing at the
    click and registers the timer only when the reference photos have
    settled.  With no timer referenced before, every registered handle
    below the next one and a gallery that is not empty: a pause after
    the photos have settled undoes the start (the timers are those of
    before, none is referenced, the page is not capturing, the
    recognized set and the table are unchanged); a pause while the
    photos load clears nothing, and when they settle the timer is
    registered and referenced although the page is not capturing, with
    the Start button offered again and no Pause button. *)
Theorem pause_during_photo_load_leaves_timer_running :
  forall (w w1 : World) (b : Build) (photo : Student.t -> PhotoOutcome)
         (settled : list Student.t),
    handlesFresh w ->
    intervalRef w = None ->
    startClicked w = (w1, Some b) ->
    validDescriptors photo (students (ui w)) <> [] ->
    isCapturing (ui w1) = true
    /\ timers w1 = timers w
    /\ timers (stopFaceRecognition (photosSettled photo settled b w1)) = timers w
    /\ intervalRef (stopFaceRecognition (photosSettled photo settled b w1)) = None
    /\ isCapturing (ui (stopFaceRecognition (photosSettled photo settled b w1))) = false
    /\ recognizedStudents (ui (stopFaceRecognition (photosSettled photo settled b w1)))
       = recognizedStudents (ui w)
    /\ attendance (stopFaceRecognition (photosSettled photo settled b w1)) = attendance w
    /\ timers (stopFaceRecognition w1) = timers w
    /\ timers (photosSettled photo settled b (stopFaceRecognition w1))
       = timers w ++
           [(nextHandle w,
             mkClosure (recognizedStudents (ui w)) (course (ui w)) (students (ui w))
               (validDescriptors photo (students (ui w))))]
    /\ intervalRef (photosSettled photo settled b (stopFaceRecognition w1))
       = Some (nextHandle w)
    /\ isCapturing (ui (photosSettled photo settled b (stopFaceRecognition w1))) = false
    /\ clickable false (ui (photosSettled photo settled b (stopFaceRecognition w1)))
         StartFaceRecognition = true
    /\ clickable false (ui (photosSettled photo settled b (stopFaceRecognition w1)))
         PauseRecognition = false.
Proof.
  intros w w1 b photo settled Hf Hi Hc Hv.
  unfold startClicked in Hc.
  destruct (isWebcamActive (ui w)) eqn:Cam; [|discriminate].
  destruct (mounted w) eqn:M; [|discriminate].
  destruct (List.length (students (ui w)) =? 0)%nat eqn:L; [discriminate|].
  simpl in Hc. injection Hc as <- <-.
  assert (V : (List.length (validDescriptors photo (students (ui w))) =? 0)%nat = false).
  { apply Nat.eqb_neq. intros E. apply Hv. now apply length_zero_iff_nil. }
  unfold stopFaceRecognition, clearInterval, photosSettled. simpl.
  rewrite !logs_world. simpl. rewrite Hi, V. simpl.
  rewrite filter_app, (filter_fresh _ _ Hf). simpl.
  rewrite Nat.eqb_refl. simpl. rewrite app_nil_r.
  unfold clickable, buttons. simpl. rewrite Cam, L. simpl.
  repeat split.
Qed.

(** X3 on the classroom: Start, then Pause before the photos of Alice
    and Bob have settled; the timer is registered all the same. *)
Lemma pause_during_photo_load_leaves_timer_running_witness :
  timers (stopFaceRecognition
            (photosSettled Sample.everyFace [Sample.bob; Sample.alice]
               (mkBuild [] "CS101" [Sample.alice; Sample.bob])
               (fst (startClicked (Sample.classroom [Sample.alice; Sample.bob])))))
  = []
  /\ intervalRef
       (photosSettled Sample.everyFace [Sample.bob; Sample.alice]
          (mkBuild [] "CS101" [Sample.alice; Sample.bob])
          (stopFaceRecognition
             (fst (startClicked (Sample.classroom [Sample.alice; Sample.bob])))))
     = Some 1%nat
  /\ isCapturing
       (ui (photosSettled Sample.everyFace [Sample.bob; Sample.alice]
              (mkBuild [] "CS101" [Sample.alice; Sample.bob])
              (stopFaceRecognition
                 (fst (startClicked (Sample.classroom [Sample.alice; Sample.bob]))))))
     = false.
Proof.
  destruct (pause_during_photo_load_leaves_timer_running
              (Sample.classroom [Sample.alice; Sample.bob])
              (fst (startClicked (Sample.classroom [Sample.alice; Sample.bob])))
              (mkBuild [] "CS101" [Sample.alice; Sample.bob])
              Sample.everyFace [Sample.bob; Sample.alice])
    as (_ & _ & H1 & _ & _ & _ & _ & _ & _ & H2 & H3 & _).
  - intros h c [].
  - vm_compute; reflexivity.
  - vm_compute; reflexivity.
  - vm_compute; discriminate.
  - split; [exact H1 | split; [exact H2 | exact H3]].
Defined.

(** X4. Pausing recognition or stopping the camera unregisters the
    timer the page refers to: a later firing of that timer changes
    nothing, and the page is not capturing. *)
Theorem stopped_timer_is_inert :
  forall (w : World) (h : nat) (ready : bool),
    intervalRef w = Some h ->
    step (stopFaceRecognition w) (TimerFire h ready) = stopFaceRecognition w
    /\ step (stopWebcam w) (TimerFire h ready) = stopWebcam w
    /\ isCapturing (ui (stopFaceRecognition w)) = false
    /\ isCapturing (ui (stopWebcam w)) = false
    /\ isWebcamActive (ui (stopWebcam w)) = false
    /\ (mounted w = true -> srcObject (stopWebcam w) = false).
Proof.
  intros w h ready Hi. split; [|split].
  - simpl. unfold timerFired, stopFaceRecognition, clearInterval. rewrite Hi. simpl.
    now rewrite lookupTimer_cleared.
  - simpl. unfold timerFired, stopWebcam, clearInterval.
    destruct (mounted w && srcObject w); simpl; rewrite Hi; simpl;
      now rewrite lookupTimer_cleared.
  - unfold stopFaceRecognition, stopWebcam, clearInterval.
    repeat split.
    intros Hm. rewrite Hm. destruct (srcObject w) eqn:S; simpl; rewrite Hi; simpl;
      [reflexivity | exact S].
Qed.

(** X4 on the classroom. *)
Lemma stopped_timer_is_inert_witness :
  step (stopFaceRecognition Sample.recognising) (TimerFire 1 true)
  = stopFaceRecognition Sample.recognising.
Proof.
  destruct (stopped_timer_is_inert Sample.recognising 1 true) as (H & _).
  - reflexivity.
  - exact H.
Defined.

Lemma nth_error_replaceAt {A} (l : list A) (k : nat) (x v : A) :
  nth_error l k = Some x -> nth_error (replaceAt k v l) k = Some v.
Proof.
  revert k. induction l as [|a l IH]; intros [|k]; simpl; try discriminate; auto.
Qed.

Lemma stopWebcam_keeps (w : World) :
  ticks (stopWebcam w) = ticks w
  /\ attendance (stopWebcam w) = attendance w
  /\ clock (stopWebcam w) = clock w
  /\ fetches (stopWebcam w) = fetches w
  /\ recognizedStudents (ui (stopWebcam w)) = recognizedStudents (ui w).
Proof.
  unfold stopWebcam, clearInterval.
  destruct (mounted w && srcObject w); simpl;
    destruct (intervalRef w); simpl; repeat split.
Qed.

(** X5. Stopping the camera does not cancel a run of the callback that
    is waiting for its detection: when the detection resolves with a
    student the callback has not seen, the run still appends her
    present row, with the camera inactive and the page not
    capturing. *)
Theorem parked_run_survives_stop :
  forall (w : World) (k : nat) (c : Closure) (s : string),
    nth_error (ticks w) k = Some (mkTick c AwaitDetect) ->
    s <> "unknown" ->
    ~ In s (c_recognizedStudents c) ->
    attendance (run [DetectDone k (Some [s]); InsertDone k Inserted] (stopWebcam w))
    = attendance w ++ [Attendance.mk s (c_course c) present (clock w)]
    /\ isWebcamActive
         (ui (run [DetectDone k (Some [s]); InsertDone k Inserted] (stopWebcam w)))
       = false
    /\ isCapturing
         (ui (run [DetectDone k (Some [s]); InsertDone k Inserted] (stopWebcam w)))
       = false.
Proof.
  intros w k c s N Hu Hs.
  destruct (stopWebcam_keeps w) as (Hk & Ha & Hc & _).
  assert (Hf : isWebcamActive (ui (stopWebcam w)) = false
               /\ isCapturing (ui (stopWebcam w)) = false).
  { unfold stopWebcam. simpl. now split. }
  destruct Hf as [Hf1 Hf2].
  remember (stopWebcam w) as w1 eqn:E1. clear E1.
  apply String.eqb_neq in Hu. apply includes_false in Hs.
  change (run [DetectDone k (Some [s]); InsertDone k Inserted] w1)
    with (insertResolved k Inserted (detectResolved k (Some [s]) w1)).
  assert (D : detectResolved k (Some [s]) w1
              = withTicks (replaceAt k (mkTick c (AwaitInsert s [])) (ticks w))
                  (withUi (setRecognizedStudents (fun prev => prev ++ [s])) w1)).
  { unfold detectResolved. rewrite Hk, N. simpl. rewrite Hu, Hs. simpl.
    now rewrite Hk. }
  rewrite D. unfold insertResolved. simpl.
  rewrite (nth_error_replaceAt _ _ _ _ N). simpl.
  rewrite Ha, Hc. repeat split; assumption.
Qed.

(** X5 on the classroom: the timer fires, the camera is stopped, the
    detection resolves with Bob. *)
Lemma parked_run_survives_stop_witness :
  attendance
    (run [DetectDone 0 (Some ["id-bob"]); InsertDone 0 Inserted]
       (stopWebcam (run [TimerFire 1 true] Sample.recognising)))
  = [Attendance.mk "id-bob" "CS101" present Sample.noon].
Proof.
  destruct (parked_run_survives_stop (run [TimerFire 1 true] Sample.recognising) 0
              (mkClosure [] "CS101" [Sample.alice; Sample.bob]
                 (validDescriptors Sample.everyFace [Sample.alice; Sample.bob]))
              "id-bob") as (H & _).
  - reflexivity.
  - discriminate.
  - intros [].
  - exact H.
Defined.

(** X6. Starting recognition twice registers two timers and the page
    keeps the handle of the second only: pausing then unregisters the
    second, and the first stays registered and goes on starting runs
    of the callback although the page shows recognition as paused. *)
Theorem second_start_leaks_first_timer :
  forall (w : World) (photo : Student.t -> PhotoOutcome),
    isWebcamActive (ui w) = true ->
    mounted w = true ->
    validDescriptors photo (students (ui w)) <> [] ->
    lookupTimer (nextHandle w) (timers w) = None ->
    intervalRef
      (stopFaceRecognition (startFaceRecognition photo (startFaceRecognition photo w)))
    = None
    /\ isCapturing
         (ui (stopFaceRecognition
                (startFaceRecognition photo (startFaceRecognition photo w))))
       = false
    /\ lookupTimer (nextHandle w)
         (timers (stopFaceRecognition
                    (startFaceRecognition photo (startFaceRecognition photo w))))
       = Some (mkClosure (recognizedStudents (ui w)) (course (ui w)) (students (ui w))
                 (validDescriptors photo (students (ui w))))
    /\ ticks (step (stopFaceRecognition
                      (startFaceRecognition photo (startFaceRecognition photo w)))
                (TimerFire (nextHandle w) true))
       = ticks w ++
           [mkTick (mkClosure (recognizedStudents (ui w)) (course (ui w))
                      (students (ui w)) (validDescriptors photo (students (ui w))))
              AwaitDetect].
Proof.
  intros w photo Hw Hm Hg Hl.
  destruct (startFaceRecognition_started photo w Hw Hm Hg)
    as (T1 & I1 & N1 & U1 & M1 & K1 & _).
  set (w1 := startFaceRecognition photo w) in *.
  assert (Hw1 : isWebcamActive (ui w1) = true) by (rewrite U1; exact Hw).
  assert (Hs1 : students (ui w1) = students (ui w)) by (now rewrite U1).
  assert (Hg1 : validDescriptors photo (students (ui w1)) <> []) by (now rewrite Hs1).
  destruct (startFaceRecognition_started photo w1 Hw1 M1 Hg1)
    as (T2 & I2 & N2 & U2 & M2 & K2 & _).
  set (w2 := startFaceRecognition photo w1) in *.
  assert (L : lookupTimer (nextHandle w) (timers (stopFaceRecognition w2))
              = Some (mkClosure (recognizedStudents (ui w)) (course (ui w))
                        (students (ui w)) (validDescriptors photo (students (ui w))))).
  { unfold stopFaceRecognition, clearInterval. rewrite I2. simpl.
    rewrite lookupTimer_other by (rewrite N1; lia).
    rewrite T2, T1, !lookupTimer_app, Hl. simpl. now rewrite Nat.eqb_refl. }
  split; [|split; [|split; [exact L|]]].
  - unfold stopFaceRecognition, clearInterval. now rewrite I2.
  - reflexivity.
  - simpl. unfold timerFired. rewrite L.
    unfold stopFaceRecognition, clearInterval. rewrite I2. simpl.
    rewrite M2. simpl. now rewrite K2, K1.
Qed.

(** X6 on the classroom. *)
Lemma second_start_leaks_first_timer_witness :
  isCapturing
    (ui (stopFaceRecognition
           (startFaceRecognition Sample.everyFace Sample.recognising)))
  = false
  /\ lookupTimer 1
       (timers (stopFaceRecognition
                  (startFaceRecognition Sample.everyFace Sample.recognising)))
     = Some (mkClosure [] "CS101" [Sample.alice; Sample.bob]
               (validDescriptors Sample.everyFace [Sample.alice; Sample.bob])).
Proof.
  destruct (second_start_leaks_first_timer
              (Sample.classroom [Sample.alice; Sample.bob]) Sample.everyFace)
    as (_ & H2 & H3 & _).
  - reflexivity.
  - reflexivity.
  - discriminate.
  - reflexivity.
  - split; [exact H2 | exact H3].
Defined.

(** ** Completing attendance *)

(** X7. Whatever the insert answers, completing attendance ends with
    the page no longer submitting and with exactly one of its two
    banners set: the error banner exactly when there was an absentee
    and the insert failed.  A failed insert leaves the table as it was
    and sends no refresh. *)
Theorem close_shows_one_banner :
  forall (r : InsertOutcome) (w : World),
    isSubmitting (ui (markAbsentStudents r w)) = false
    /\ (error (ui (markAbsentStudents r w)) = None
        <-> successMessage (ui (markAbsentStudents r w)) <> None)
    /\ (error (ui (markAbsentStudents r w)) <> None
        <-> r <> Inserted /\ absentStudentIds (ui w) <> [])
    /\ (r <> Inserted ->
        attendance (markAbsentStudents r w) = attendance w
        /\ fetches (markAbsentStudents r w) = fetches w).
Proof.
  intros r w. unfold markAbsentStudents.
  destruct (absentStudentIds (ui w)) as [|a l] eqn:E; simpl.
  - repeat split; try congruence; try discriminate; intros; tauto.
  - destruct r as [|m|m]; simpl; repeat split; try congruence; try discriminate;
      intros; tauto.
Qed.

(** ** Refreshing *)



(** X9. Queries are not cancelled and the last one to resolve wins:
    when two refreshes are pending and the later one resolves first,
    the page ends with the records and the recognized set of the
    earlier one, whatever course is selected. *)
Theorem last_resolved_query_wins :
  forall (w : World) (a b : string) (da db : Z),
    fetches w = [(a, da); (b, db)] ->
    recognizedStudents (ui (run [FetchDone 1 QueryOk; FetchDone 0 QueryOk] w))
    = presentIds (queryAttendance (attendance w) a da)
    /\ attendanceRecords (ui (run [FetchDone 1 QueryOk; FetchDone 0 QueryOk] w))
       = queryAttendance (attendance w) a da
    /\ course (ui (run [FetchDone 1 QueryOk; FetchDone 0 QueryOk] w)) = course (ui w)
    /\ fetches (run [FetchDone 1 QueryOk; FetchDone 0 QueryOk] w) = [].
Proof.
  intros w a b da db Hf. unfold run. simpl. unfold fetchResolved.
  rewrite Hf. simpl. repeat split.
Qed.

(** X9 on two selections in a row: MA201 is selected, and the page
    holds the recognized set of CS101. *)
Lemma last_resolved_query_wins_witness :
  recognizedStudents
    (ui (run [FetchDone 1 QueryOk; FetchDone 0 QueryOk] Sample.twoSelections))
  = ["id-alice"]
  /\ course (ui (run [FetchDone 1 QueryOk; FetchDone 0 QueryOk] Sample.twoSelections))
     = "MA201".
Proof.
  destruct (last_resolved_query_wins Sample.twoSelections "CS101" "MA201" 20000 20000)
    as (H1 & _ & H3 & _).
  - reflexivity.
  - split; [exact H1 | exact H3].
Defined.

(** ** What the page shows *)

Lemma filter_on_ids (f : string -> bool) (roster : list Student.t) :
  List.length (filter (fun s => f (Student.id s)) roster)
  = List.length (filter f (map Student.id roster)).
Proof.
  induction roster as [|a l IH]; simpl; [reflexivity|].
  destruct (f (Student.id a)); simpl; congruence.
Qed.

Lemma recognized_among_ids (ids recognized : list string) :
  NoDup ids -> NoDup recognized ->
  (forall x, In x recognized -> In x ids) ->
  List.length (filter (includes recognized) ids) = List.length recognized.
Proof.
  intros Hi Hr Hsub. apply Permutation_length, NoDup_Permutation.
  - now apply NoDup_filter.
  - exact Hr.
  - intros x. rewrite filter_In, includes_In. split; [tauto | auto].
Qed.

(** X10. When the recognized set has no repeated student and holds
    roster members only, and the roster has no repeated id, the Absent
    counter of the page is the number of absent rows that completing
    attendance would insert, and it is not negative. *)
Theorem absent_counter_matches_close :
  forall s : State,
    NoDup (map Student.id (students s)) ->
    NoDup (recognizedStudents s) ->
    (forall x, In x (recognizedStudents s) -> In x (map Student.id (students s))) ->
    absentShown s = Z.of_nat (List.length (absentStudentIds s))
    /\ (0 <= absentShown s)%Z
    /\ (presentShown s + absentShown s)%Z = Z.of_nat (List.length (students s)).
Proof.
  intros s Hi Hr Hsub. unfold absentShown, presentShown, absentStudentIds.
  rewrite length_map.
  pose proof (filter_length (fun st => includes (recognizedStudents s) (Student.id st))
                (students s)) as L.
  rewrite (filter_on_ids (includes (recognizedStudents s))) in L.
  rewrite (recognized_among_ids _ _ Hi Hr Hsub) in L.
  lia.
Qed.

(** X10 on the classroom after Alice was recognized once. *)
Lemma absent_counter_matches_close_witness :
  absentShown (ui Sample.afterAlice) = 1%Z.
Proof.
  destruct (absent_counter_matches_close (ui Sample.afterAlice)) as (H & _).
  - repeat constructor; simpl; intuition discriminate.
  - repeat constructor; simpl; intuition discriminate.
  - intros x [<- | []]. left. reflexivity.
  - exact H.
Defined.

(** Without those conditions the counter can go below zero: the same
    face recognized in three ticks, in a roster of two. *)
Example absent_counter_below_zero :
  absentShown (ui (run (Sample.sameFace 3) Sample.recognising)) = (-1)%Z.
Proof. vm_compute. reflexivity. Qed.

Lemma insertDesc_newestFirst (r : Attendance.row) (l : list Attendance.row) :
  newestFirst l -> newestFirst (insertDesc r l).
Proof.
  induction l as [|x t IH]; simpl; intros H.
  - split; [intros y []|exact I].
  - destruct H as [Hx Ht].
    destruct (Attendance.created_at x <=? Attendance.created_at r)%Z eqn:E.
    + apply Z.leb_le in E. simpl. split; [|split; assumption].
      intros y [<- | Hy]; [exact E|]. specialize (Hx y Hy). lia.
    + apply Z.leb_gt in E. simpl. split; [|now apply IH].
      intros y Hy. apply insertDesc_In in Hy as [-> | Hy]; [lia | now apply Hx].
Qed.

Lemma orderDesc_newestFirst (l : list Attendance.row) : newestFirst (orderDesc l).
Proof.
  induction l as [|a l IH]; simpl; [exact I|]. now apply insertDesc_newestFirst.
Qed.




(** ** Buttons *)

Lemma clickable_start (loading : bool) (s : State) :
  clickable loading s StartFaceRecognition = true ->
  isWebcamActive s = true /\ isCapturing s = false /\ students s <> [].
Proof.
  unfold clickable, buttons.
  destruct (isWebcamActive s); simpl; [|discriminate].
  destruct (isCapturing s); simpl; [discriminate|].
  destruct (students s); simpl; [discriminate|]. intros _. repeat split. discriminate.
Qed.

(** X12. A click on an enabled Start Face Recognition button never
    takes the silent return of the handler: with the video and canvas
    mounted it either registers the timer and leaves the page
    capturing, or (no roster photo gives a descriptor) shows the
    gallery error and leaves the page not capturing. *)
Theorem enabled_start_button_passes_guard :
  forall (loading : bool) (w : World) (photo : Student.t -> PhotoOutcome),
    clickable loading (ui w) StartFaceRecognition = true ->
    mounted w = true ->
    (validDescriptors photo (students (ui w)) <> [] ->
     isCapturing (ui (startFaceRecognition photo w)) = true
     /\ intervalRef (startFaceRecognition photo w) = Some (nextHandle w)
     /\ error (ui (startFaceRecognition photo w)) = None)
    /\ (validDescriptors photo (students (ui w)) = [] ->
        isCapturing (ui (startFaceRecognition photo w)) = false
        /\ timers (startFaceRecognition photo w) = timers w
        /\ error (ui (startFaceRecognition photo w))
           = Some "Could not create face descriptors from student photos. Please check the photos.").
Proof.
  intros loading w photo Hc Hm.
  destruct (clickable_start loading (ui w) Hc) as (Hw & _ & Hr). split.
  - intros Hg. destruct (startFaceRecognition_started photo w Hw Hm Hg)
      as (_ & I & _ & U & _). rewrite U. now repeat split.
  - intros Hg. unfold startFaceRecognition.
    rewrite (guard_passes w Hw Hm Hr), logs_world, Hg. simpl. now repeat split.
Qed.

(** X12 on the classroom. *)
Lemma enabled_start_button_passes_guard_witness :
  isCapturing
    (ui (startFaceRecognition Sample.everyFace
           (Sample.classroom [Sample.alice; Sample.bob])))
  = true.
Proof.
  destruct (enabled_start_button_passes_guard false
              (Sample.classroom [Sample.alice; Sample.bob]) Sample.everyFace)
    as (H & _).
  - reflexivity.
  - reflexivity.
  - apply H. discriminate.
Defined.

(** X13. Complete Attendance can be clicked only while the camera is
    active and the page is capturing and not submitting; once
    recognition is paused or the camera stopped it cannot be clicked
    any more. *)
Theorem complete_button_needs_capturing :
  forall (loading : bool) (w : World),
    (clickable loading (ui w) CompleteAttendance = true ->
     isWebcamActive (ui w) = true /\ isCapturing (ui w) = true
     /\ isSubmitting (ui w) = false)
    /\ clickable loading (ui (stopFaceRecognition w)) CompleteAttendance = false
    /\ clickable loading (ui (stopWebcam w)) CompleteAttendance = false.
Proof.
  intros loading w. split; [|split].
  - unfold clickable, buttons.
    destruct (isWebcamActive (ui w)); simpl; [|discriminate].
    destruct (isCapturing (ui w)); simpl; [|discriminate].
    destruct (isSubmitting (ui w)); simpl; [discriminate | auto].
  - unfold clickable, buttons, stopFaceRecognition. simpl.
    destruct (isWebcamActive (ui (clearInterval w))); reflexivity.
  - unfold clickable, buttons, stopWebcam. simpl. reflexivity.
Qed.

(** ** The list of courses *)

Lemma setFrom_spec (xs seen : list string) :
  NoDup seen ->
  NoDup (setFrom seen xs)
  /\ forall x, In x (setFrom seen xs) <-> In x seen \/ In x xs.
Proof.
  revert seen. induction xs as [|a xs IH]; intros seen Hs; simpl.
  - split; [exact Hs | intros x; tauto].
  - destruct (includes seen a) eqn:I.
    + destruct (IH seen Hs) as [N M]. split; [exact N|].
      intros x. rewrite M. apply includes_In in I. split; [tauto|].
      intros [H | [<- | H]]; auto.
    + apply includes_false in I.
      assert (Hs' : NoDup (seen ++ [a])).
      { apply NoDup_app; [exact Hs | repeat constructor; intros [] |].
        intros x Hx [<- | []]. contradiction. }
      destruct (IH _ Hs') as [N M]. split; [exact N|].
      intros x. rewrite M, in_app_iff. simpl. tauto.
Qed.

Lemma setFrom_distinct (xs seen : list string) :
  NoDup (seen ++ xs) -> setFrom seen xs = seen ++ xs.
Proof.
  revert seen. induction xs as [|a xs IH]; intros seen H; simpl.
  - now rewrite app_nil_r.
  - assert (I : includes seen a = false).
    { apply includes_false. intros Hin. apply NoDup_remove_2 in H.
      apply H, in_or_app. now left. }
    rewrite I, IH; rewrite <- app_assoc; [reflexivity | exact H].
Qed.

(** X14. The list of courses offered for selection has no repeated
    course and holds exactly the courses that occur in the student
    rows; computing it again from itself changes nothing.  When the
    query fails the list is kept as it was and the page shows
    'Failed to load courses'. *)
Theorem courses_are_unique :
  forall (column courses : list string) (w : World) (m : string),
    NoDup (fst (fetchCourses (CoursesOk column) courses w))
    /\ (forall c, In c (fst (fetchCourses (CoursesOk column) courses w)) <-> In c column)
    /\ uniqueCourses (uniqueCourses column) = uniqueCourses column
    /\ fst (fetchCourses (CoursesError m) courses w) = courses
    /\ error (ui (snd (fetchCourses (CoursesError m) courses w)))
       = Some "Failed to load courses".
Proof.
  intros column courses w m. simpl.
  destruct (setFrom_spec column [] (NoDup_nil _)) as [N M].
  split; [exact N|]. split; [|split; [|split; reflexivity]].
  - intros c. unfold uniqueCourses. rewrite M. simpl. tauto.
  - unfold uniqueCourses at 1. now rewrite setFrom_distinct.
Qed.

Example courses_keep_first_occurrence :
  uniqueCourses ["CS101"; "CS101"; "MA201"; "CS101"; "PH301"; "MA201"]
  = ["CS101"; "MA201"; "PH301"].
Proof. reflexivity. Qed.

(** * Further properties of the enrolment form *)

Lemma submit_guards (s : StudentRegistration.State) :
  StudentRegistration.formComplete s = true ->
  exists f, StudentRegistration.photo s = Some f
            /\ (StudentRegistration.name s =? "")
               || (StudentRegistration.studentId s =? "")
               || (StudentRegistration.course s =? "") = false
            /\ StudentRegistration.isModelLoading s = false.
Proof.
  unfold StudentRegistration.formComplete. intros H.
  apply andb_prop in H as [H H5]. apply andb_prop in H as [H H4].
  apply andb_prop in H as [H H3]. apply andb_prop in H as [H1 H2].
  destruct (StudentRegistration.photo s) as [f|]; [|discriminate].
  exists f. apply negb_true_iff in H1, H2, H3, H5. rewrite H1, H2, H3. auto.
Qed.

(** X15. A submit with an empty field, without a photo, or before the
    models are loaded is refused before anything is sent: the photo
    store is not called, the bucket and the students table are
    unchanged, the page is not put in the saving state, the handler
    returns normally, and the error names the reason, the missing
    field first. *)
Theorem incomplete_form_is_refused :
  forall (b : StudentRegistration.Backend) (w : StudentRegistration.World),
    StudentRegistration.formComplete (StudentRegistration.ui w) = false ->
    snd (StudentRegistration.handleSubmit b w) = StudentRegistration.Normal
    /\ StudentRegistration.storageCalls (fst (StudentRegistration.handleSubmit b w))
       = StudentRegistration.storageCalls w
    /\ StudentRegistration.objects (fst (StudentRegistration.handleSubmit b w))
       = StudentRegistration.objects w
    /\ StudentRegistration.studentsTable (fst (StudentRegistration.handleSubmit b w))
       = StudentRegistration.studentsTable w
    /\ StudentRegistration.isSaving
         (StudentRegistration.ui (fst (StudentRegistration.handleSubmit b w)))
       = StudentRegistration.isSaving (StudentRegistration.ui w)
    /\ StudentRegistration.error
         (StudentRegistration.ui (fst (StudentRegistration.handleSubmit b w)))
       = Some (if negb (StudentRegistration.name (StudentRegistration.ui w) =? "")
                  && negb (StudentRegistration.studentId (StudentRegistration.ui w) =? "")
                  && negb (StudentRegistration.course (StudentRegistration.ui w) =? "")
                  && match StudentRegistration.photo (StudentRegistration.ui w) with
                     | Some _ => true
                     | None => false
                     end
               then "Please wait for facial recognition models to load"
               else "All fields are required, including student photo").
Proof.
  intros b w. unfold StudentRegistration.formComplete, StudentRegistration.handleSubmit.
  destruct (StudentRegistration.photo (StudentRegistration.ui w)) as [f|];
    destruct (StudentRegistration.name (StudentRegistration.ui w) =? "");
    destruct (StudentRegistration.studentId (StudentRegistration.ui w) =? "");
    destruct (StudentRegistration.course (StudentRegistration.ui w) =? "");
    destruct (StudentRegistration.isModelLoading (StudentRegistration.ui w));
    simpl; intros H; try discriminate H; repeat split.
Qed.

(** X15 on a form without a photo. *)
Lemma incomplete_form_is_refused_witness :
  StudentRegistration.error
    (StudentRegistration.ui
       (fst (StudentRegistration.handleSubmit Enrolment.noFaceInPhoto
               (StudentRegistration.withUi (StudentRegistration.setPhoto None)
                  Enrolment.filledForm))))
  = Some "All fields are required, including student photo".
Proof.
  destruct (incomplete_form_is_refused Enrolment.noFaceInPhoto
              (StudentRegistration.withUi (StudentRegistration.setPhoto None)
                 Enrolment.filledForm))
    as (_ & _ & _ & _ & _ & H).
  - reflexivity.
  - exact H.
Defined.

Lemma resolve_filePath_in_try (b : StudentRegistration.Backend)
    (f : StudentRegistration.File) (s : StudentRegistration.State) :
  StudentRegistration.resolve "filePath"
    (StudentRegistration.tryScope b f (StudentRegistration.enclosingScope s))
  = Some (StudentRegistration.VString (StudentRegistration.uploadPath b f)).
Proof. reflexivity. Qed.

(** X16. A complete form whose upload, descriptor and insert all
    succeed registers the student: the photo is stored under the
    upload path, one student row is appended with the form's fields,
    the public URL of that path and the descriptor, the form is reset,
    the success message is shown without an error, and the page is no
    longer saving. *)
Theorem complete_submit_registers_student :
  forall (b : StudentRegistration.Backend) (w : StudentRegistration.World)
         (f : StudentRegistration.File) (d : Descriptor),
    StudentRegistration.formComplete (StudentRegistration.ui w) = true ->
    StudentRegistration.photo (StudentRegistration.ui w) = Some f ->
    StudentRegistration.upload b = StudentRegistration.Uploaded ->
    StudentRegistration.face b = StudentRegistration.Computed d ->
    StudentRegistration.insert b = Inserted ->
    snd (StudentRegistration.handleSubmit b w) = StudentRegistration.Normal
    /\ StudentRegistration.studentsTable (fst (StudentRegistration.handleSubmit b w))
       = StudentRegistration.studentsTable w ++
           [StudentRegistration.mkRow
              (StudentRegistration.name (StudentRegistration.ui w))
              (StudentRegistration.studentId (StudentRegistration.ui w))
              (StudentRegistration.course (StudentRegistration.ui w))
              (StudentRegistration.publicUrl (StudentRegistration.uploadPath b f)) d]
    /\ StudentRegistration.objects (fst (StudentRegistration.handleSubmit b w))
       = StudentRegistration.objects w ++ [StudentRegistration.uploadPath b f]
    /\ StudentRegistration.storageCalls (fst (StudentRegistration.handleSubmit b w))
       = StudentRegistration.storageCalls w ++
           [StudentRegistration.Upload (StudentRegistration.uploadPath b f)]
    /\ StudentRegistration.ui (fst (StudentRegistration.handleSubmit b w))
       = StudentRegistration.mkState "" "" "" None false None
           (Some "Student registered successfully!") false.
Proof.
  intros b w f d Hc Hp Hu Hf Hi.
  destruct (submit_guards _ Hc) as [f' (Hp' & Hg & Hm)].
  unfold StudentRegistration.handleSubmit. rewrite Hp, Hg, Hm.
  unfold StudentRegistration.tryBlock. rewrite resolve_filePath_in_try.
  rewrite Hu, Hf, Hi. simpl. repeat split.
  destruct (StudentRegistration.ui w) as [n si c p sv e sm ml].
  simpl in Hm. subst ml. vm_compute. reflexivity.
Qed.

(** X16 on the filled form, with a face in the photo. *)
Lemma complete_submit_registers_student_witness :
  snd (StudentRegistration.handleSubmit
         (StudentRegistration.mkBackend 1728043200000%N StudentRegistration.Uploaded
            (StudentRegistration.Computed [(1 # 2)%Q]) Inserted true)
         Enrolment.filledForm)
  = StudentRegistration.Normal
  /\ StudentRegistration.objects
       (fst (StudentRegistration.handleSubmit
               (StudentRegistration.mkBackend 1728043200000%N StudentRegistration.Uploaded
                  (StudentRegistration.Computed [(1 # 2)%Q]) Inserted true)
               Enrolment.filledForm))
     = ["students/1728043200000.jpg"].
Proof.
  destruct (complete_submit_registers_student
              (StudentRegistration.mkBackend 1728043200000%N StudentRegistration.Uploaded
                 (StudentRegistration.Computed [(1 # 2)%Q]) Inserted true)
              Enrolment.filledForm (StudentRegistration.mkFile "ann.jpg") [(1 # 2)%Q])
    as (H1 & _ & H3 & _).
  - reflexivity.
  - reflexivity.
  - reflexivity.
  - reflexivity.
  - reflexivity.
  - split; [exact H1 | exact H3].
Defined.

(** X17. A complete form for which the upload, the descriptor or the
    insert fails ends the same way whatever failed: the handler
    rejects with the ReferenceError of its [catch] clause, after
    showing 'Failed to register student: ' and the cause; the students
    table is unchanged, the page is no longer saving, the photo store
    was called for the upload only, and the photo is in the bucket
    exactly when the upload itself succeeded. *)
Theorem failed_submit_rejects_without_rollback :
  forall (b : StudentRegistration.Backend) (w : StudentRegistration.World)
         (f : StudentRegistration.File),
    StudentRegistration.formComplete (StudentRegistration.ui w) = true ->
    StudentRegistration.photo (StudentRegistration.ui w) = Some f ->
    StudentRegistration.goesThrough b = false ->
    snd (StudentRegistration.handleSubmit b w)
    = StudentRegistration.Thrown "ReferenceError: filePath is not defined"
    /\ StudentRegistration.studentsTable (fst (StudentRegistration.handleSubmit b w))
       = StudentRegistration.studentsTable w
    /\ StudentRegistration.isSaving
         (StudentRegistration.ui (fst (StudentRegistration.handleSubmit b w)))
       = false
    /\ (exists cause : string,
          StudentRegistration.error
            (StudentRegistration.ui (fst (StudentRegistration.handleSubmit b w)))
          = Some ("Failed to register student: " ++ cause)%string)
    /\ StudentRegistration.storageCalls (fst (StudentRegistration.handleSubmit b w))
       = StudentRegistration.storageCalls w ++
           [StudentRegistration.Upload (StudentRegistration.uploadPath b f)]
    /\ StudentRegistration.objects (fst (StudentRegistration.handleSubmit b w))
       = match StudentRegistration.upload b with
         | StudentRegistration.Uploaded =>
             StudentRegistration.objects w ++ [StudentRegistration.uploadPath b f]
         | StudentRegistration.UploadFailed _ => StudentRegistration.objects w
         end.
Proof.
  intros b w f Hc Hp Hg.
  destruct (submit_guards _ Hc) as [f' (Hp' & Hgd & Hm)].
  unfold StudentRegistration.handleSubmit. rewrite Hp, Hgd, Hm.
  unfold StudentRegistration.tryBlock. rewrite resolve_filePath_in_try.
  unfold StudentRegistration.goesThrough in Hg.
  unfold StudentRegistration.catchBlock.
  destruct (StudentRegistration.upload b) as [|m]; simpl.
  - destruct (StudentRegistration.face b) as [d| |m]; simpl.
    + destruct (StudentRegistration.insert b) as [|m|m]; [discriminate| |];
        simpl; repeat split; eexists; reflexivity.
    + repeat split; eexists; reflexivity.
    + repeat split; eexists; reflexivity.
  - repeat split; eexists; reflexivity.
Qed.

(** X17 on the filled form, the insert refused (the student id is
    taken). *)
Lemma failed_submit_rejects_without_rollback_witness :
  snd (StudentRegistration.handleSubmit
         (StudentRegistration.mkBackend 1728043200000%N StudentRegistration.Uploaded
            (StudentRegistration.Computed [(1 # 2)%Q])
            (InsertRefused "duplicate key value violates unique constraint") true)
         Enrolment.filledForm)
  = StudentRegistration.Thrown "ReferenceError: filePath is not defined".
Proof.
  destruct (failed_submit_rejects_without_rollback
              (StudentRegistration.mkBackend 1728043200000%N StudentRegistration.Uploaded
                 (StudentRegistration.Computed [(1 # 2)%Q])
                 (InsertRefused "duplicate key value violates unique constraint") true)
              Enrolment.filledForm (StudentRegistration.mkFile "ann.jpg"))
    as (H & _).
  - reflexivity.
  - reflexivity.
  - reflexivity.
  - exact H.
Defined.

Lemma lastSegment_no_dot (s acc : string) :
  StudentRegistration.hasChar "." acc = false ->
  StudentRegistration.hasChar "." (StudentRegistration.lastSegment acc s) = false.
Proof.
  revert acc. induction s as [|a s IH]; intros acc H; simpl; [exact H|].
  destruct (Ascii.eqb a ".") eqn:E.
  - now apply IH.
  - apply IH. clear IH. induction acc as [|b acc IHa]; simpl in *.
    + now rewrite E.
    + apply orb_false_elim in H as [H1 H2]. now rewrite H1, IHa.
Qed.

Lemma lastSegment_whole (s acc : string) :
  StudentRegistration.hasChar "." s = false ->
  StudentRegistration.lastSegment acc s = (acc ++ s)%string.
Proof.
  revert acc. induction s as [|a s IH]; intros acc H; simpl in *.
  - clear. induction acc as [|b acc IH]; simpl; congruence.
  - apply orb_false_elim in H as [H1 H2]. rewrite H1, (IH _ H2).
    clear. induction acc as [|b acc IH]; simpl; congruence.
Qed.

(** X18. The path a photo is uploaded to always lies in the folder
    [students/] (the folder the storage policy allows inserts in); it
    ends with the part of the file's name after its last dot, which
    holds no dot, and that part is the whole name when the name has no
    dot. *)
Theorem upload_path_is_in_students_folder :
  forall (b : StudentRegistration.Backend) (f : StudentRegistration.File),
    String.prefix "students/" (StudentRegistration.uploadPath b f) = true
    /\ StudentRegistration.uploadPath b f
       = ("students/" ++ StudentRegistration.decimal (StudentRegistration.dateNow b)
            ++ "." ++ StudentRegistration.lastSegment "" (StudentRegistration.fileName f))%string
    /\ StudentRegistration.hasChar "."
         (StudentRegistration.lastSegment "" (StudentRegistration.fileName f)) = false
    /\ (StudentRegistration.hasChar "." (StudentRegistration.fileName f) = false ->
        StudentRegistration.lastSegment "" (StudentRegistration.fileName f)
        = StudentRegistration.fileName f).
Proof.
  intros b f. split; [|split; [reflexivity|split]].
  - unfold StudentRegistration.uploadPath. simpl.
    repeat (destruct (ascii_dec _ _) as [_|N]; [|exfalso; now apply N]).
    now destruct (_ ++ _)%string.
  - now apply lastSegment_no_dot.
  - intros H. now rewrite lastSegment_whole.
Qed.

(** * The account pages *)

Lemma jsEq_eq (a b : JsString) : jsEq a b = true <-> a = b.
Proof.
  revert b. induction a as [|x a IH]; intros [|y b]; simpl;
    try (split; [discriminate | discriminate]); [tauto|].
  rewrite andb_true_iff, N.eqb_eq, IH. split; [intros [-> ->]; reflexivity|].
  intros [= -> ->]. auto.
Qed.

Lemma orElse_not_empty (m fallback : string) :
  fallback <> "" -> orElse m fallback <> "".
Proof.
  unfold orElse. intros H. destruct (String.eqb_spec m ""); assumption.
Qed.

(** X19. Registration calls the auth client only for a password that
    equals its confirmation and has at least six UTF-16 code units,
    and then once, with the role [admin].  A mismatch is reported
    before a short password; a refused form changes nothing but the
    error.  The page navigates to [/] exactly when the call succeeds,
    and a failed call shows the client's message, or the fixed text
    when the message is empty: the error shown is never empty. *)
Theorem register_validates_before_sign_up :
  forall (r : AuthOutcome) (w : RegisterPage.World),
    (RegisterPage.password (RegisterPage.ui w)
     <> RegisterPage.confirmPassword (RegisterPage.ui w) ->
     RegisterPage.handleRegister r w
     = RegisterPage.withUi (RegisterPage.setError (Some "Passwords do not match")) w)
    /\ (RegisterPage.password (RegisterPage.ui w)
        = RegisterPage.confirmPassword (RegisterPage.ui w) ->
        (List.length (RegisterPage.password (RegisterPage.ui w)) < 6)%nat ->
        RegisterPage.handleRegister r w
        = RegisterPage.withUi
            (RegisterPage.setError (Some "Password must be at least 6 characters")) w)
    /\ (RegisterPage.password (RegisterPage.ui w)
        = RegisterPage.confirmPassword (RegisterPage.ui w) ->
        (6 <= List.length (RegisterPage.password (RegisterPage.ui w)))%nat ->
        RegisterPage.signUps (RegisterPage.handleRegister r w)
        = RegisterPage.signUps w ++
            [RegisterPage.mkSignUp (RegisterPage.email (RegisterPage.ui w))
               (RegisterPage.password (RegisterPage.ui w))
               (RegisterPage.name (RegisterPage.ui w)) "admin"]
        /\ RegisterPage.loading (RegisterPage.ui (RegisterPage.handleRegister r w)) = false
        /\ match r with
           | AuthOk =>
               RegisterPage.navigations (RegisterPage.handleRegister r w)
               = RegisterPage.navigations w ++ ["/"]
               /\ RegisterPage.error (RegisterPage.ui (RegisterPage.handleRegister r w))
                  = None
           | AuthError m =>
               RegisterPage.navigations (RegisterPage.handleRegister r w)
               = RegisterPage.navigations w
               /\ RegisterPage.error (RegisterPage.ui (RegisterPage.handleRegister r w))
                  = Some (orElse m "An error occurred during registration")
           end)
    /\ RegisterPage.error (RegisterPage.ui (RegisterPage.handleRegister r w)) <> Some "".
Proof.
  intros r w. unfold RegisterPage.handleRegister.
  destruct (jsEq (RegisterPage.password (RegisterPage.ui w))
              (RegisterPage.confirmPassword (RegisterPage.ui w))) eqn:E; simpl.
  - apply jsEq_eq in E.
    destruct (Nat.ltb_spec (List.length (RegisterPage.password (RegisterPage.ui w))) 6)
      as [L|L]; simpl.
    + split; [intros H; contradiction|]. split; [intros _ _|split; [intros _ H; lia|]].
      * now destruct w as [[e p cp n l er] su nv].
      * discriminate.
    + split; [intros H; contradiction|]. split; [intros _ H; lia|].
      split.
      * intros _ _. destruct r as [|m]; simpl; repeat split.
      * destruct r as [|m]; simpl; [discriminate|].
        intros [= H]. revert H. apply orElse_not_empty. discriminate.
  - assert (Hne : RegisterPage.password (RegisterPage.ui w)
                  <> RegisterPage.confirmPassword (RegisterPage.ui w)).
    { intros H. apply jsEq_eq in H. congruence. }
    split; [intros _|split; [intros H; contradiction|split; [intros H; contradiction|]]].
    + now destruct w as [[e p cp n l er] su nv].
    + discriminate.
Qed.

(** X20. Signing in sends the credentials as they are, without any
    check of its own, and ends not loading.  The page navigates to
    [/dashboard] exactly when the client accepts them; otherwise it
    stays and shows the client's message, or the fixed text when the
    message is empty. *)
Theorem login_navigates_only_on_success :
  forall (r : AuthOutcome) (w : LoginPage.World),
    LoginPage.signIns (LoginPage.handleLogin r w)
    = LoginPage.signIns w ++
        [(LoginPage.email (LoginPage.ui w), LoginPage.password (LoginPage.ui w))]
    /\ LoginPage.loading (LoginPage.ui (LoginPage.handleLogin r w)) = false
    /\ (LoginPage.navigations (LoginPage.handleLogin r w)
        = LoginPage.navigations w ++ ["/dashboard"]
        /\ LoginPage.error (LoginPage.ui (LoginPage.handleLogin r w)) = None
        /\ r = AuthOk
        \/ LoginPage.navigations (LoginPage.handleLogin r w) = LoginPage.navigations w
           /\ (exists m, r = AuthError m
                         /\ LoginPage.error (LoginPage.ui (LoginPage.handleLogin r w))
                            = Some (orElse m "An error occurred during login")))
    /\ LoginPage.error (LoginPage.ui (LoginPage.handleLogin r w)) <> Some "".
Proof.
  intros r w. unfold LoginPage.handleLogin. destruct r as [|m]; simpl.
  - repeat split; [left; repeat split | discriminate].
  - repeat split; [right; split; [reflexivity | eauto]|].
    intros [= H]. revert H. apply orElse_not_empty. discriminate.
Qed.

(** * The routes *)

(** X21. Once the session is known, a page behind the sign-in
    (dashboard, students, attendance, reports) is on screen only for a
    signed-in user; every redirect lands on a page after one hop, so
    no location redirects for ever; without a user every location
    ends on the login page, the registration page or the not-found
    page; and while the session is loading only the loading screen is
    rendered. *)
Theorem routes_guard_the_pages :
  forall (s : App.State) (r : App.Route),
    App.isNavigate (App.settled 1 s r) = false
    /\ (App.protected (App.settled 1 s r) = true ->
        App.signedInUser s = true /\ App.loading s = false)
    /\ (App.protected (App.render s r) = true ->
        App.signedInUser s = true /\ App.loading s = false)
    /\ (App.loading s = true -> App.render s r = App.LoadingScreenEl)
    /\ (App.loading s = false -> App.signedInUser s = false ->
        App.settled 1 s r = App.LoginPageEl
        \/ App.settled 1 s r = App.RegisterPageEl
        \/ App.settled 1 s r = App.NotFoundEl).
Proof.
  intros [u l] r. unfold App.settled, App.render, App.element, App.signedInUser.
  destruct l, u as [id|], r; simpl; repeat split; try discriminate; auto.
Qed.

(** A sign-out received while the attendance page is on screen sends
    the location to the login page. *)
Example sign_out_leaves_attendance_page :
  App.settled 1 (App.onAuthStateChange None (App.mkState (Some "u1") false))
    App.AttendanceRoute
  = App.LoginPageEl.
Proof. reflexivity. Qed.

(** * The dashboard *)

Lemma insertDesc_perm (r : Attendance.row) (l : list Attendance.row) :
  Permutation (insertDesc r l) (r :: l).
Proof.
  induction l as [|x t IH]; simpl; [reflexivity|].
  destruct (Attendance.created_at x <=? Attendance.created_at r)%Z; [reflexivity|].
  rewrite IH. apply perm_swap.
Qed.

Lemma orderDesc_perm (l : list Attendance.row) : Permutation (orderDesc l) l.
Proof.
  induction l as [|a l IH]; simpl; [reflexivity|].
  rewrite insertDesc_perm. now constructor.
Qed.

Lemma newestFirst_app (a b : list Attendance.row) :
  newestFirst (a ++ b) ->
  newestFirst a
  /\ forall r r', In r a -> In r' b ->
                  (Attendance.created_at r' <= Attendance.created_at r)%Z.
Proof.
  induction a as [|x a IH]; simpl.
  - intros _. split; [exact I | intros r r' []].
  - intros [Hx Ha]. destruct (IH Ha) as [Na Hab]. split.
    + split; [|exact Na]. intros y Hy. apply Hx, in_or_app. now left.
    + intros r r' [<- | Hr] Hr'; [|now apply Hab]. apply Hx, in_or_app. now right.
Qed.

(** X22. When its queries succeed the dashboard shows the number of
    student rows, the number of attendance rows and the number of
    present rows of today; with at least one student, today's absent
    figure is the number of students minus the number of today's
    present rows (so the two figures add up to the number of students,
    and the absent figure is negative exactly when there are more
    present rows today than students), and with no student it is 0.
    When a query fails the figures and the recent activity stay as
    they were. *)
Theorem dashboard_absent_is_students_minus_presents :
  forall (students : list Student.t) (table : list Attendance.row) (now : Z)
         (s : Dashboard.State),
    Dashboard.totalStudents
      (Dashboard.stats (Dashboard.fetchDashboardData true students table now s))
    = Z.of_nat (List.length students)
    /\ Dashboard.totalAttendance
         (Dashboard.stats (Dashboard.fetchDashboardData true students table now s))
       = Z.of_nat (List.length table)
    /\ Dashboard.todayPresent
         (Dashboard.stats (Dashboard.fetchDashboardData true students table now s))
       = Z.of_nat (List.length
                     (filter (fun r => isPresent r && Dashboard.inDay (isoDate now) r)
                        table))
    /\ (0 <= Dashboard.todayPresent
               (Dashboard.stats (Dashboard.fetchDashboardData true students table now s))
        <= Dashboard.totalAttendance
             (Dashboard.stats (Dashboard.fetchDashboardData true students table now s)))%Z
    /\ (students <> [] ->
        (Dashboard.todayPresent
           (Dashboard.stats (Dashboard.fetchDashboardData true students table now s))
         + Dashboard.todayAbsent
             (Dashboard.stats (Dashboard.fetchDashboardData true students table now s))
         = Z.of_nat (List.length students))%Z)
    /\ (students = [] ->
        Dashboard.todayAbsent
          (Dashboard.stats (Dashboard.fetchDashboardData true students table now s))
        = 0%Z)
    /\ ((Dashboard.todayAbsent
           (Dashboard.stats (Dashboard.fetchDashboardData true students table now s))
         < 0)%Z
        <-> (0 < List.length students
             < List.length
                 (filter (fun r => isPresent r && Dashboard.inDay (isoDate now) r) table))%nat)
    /\ Dashboard.stats (Dashboard.fetchDashboardData false students table now s)
       = Dashboard.stats s
    /\ Dashboard.recentActivity (Dashboard.fetchDashboardData false students table now s)
       = Dashboard.recentActivity s
    /\ Dashboard.loading (Dashboard.fetchDashboardData false students table now s) = false.
Proof.
  intros students table now s. unfold Dashboard.fetchDashboardData.
  pose proof (filter_length_le
                (fun r => isPresent r && Dashboard.inDay (isoDate now) r) table) as L.
  set (p := List.length
              (filter (fun r => isPresent r && Dashboard.inDay (isoDate now) r) table)) in *.
  destruct students as [|a l].
  - simpl. repeat split; intros; try lia; congruence.
  - remember (a :: l) as st eqn:Est.
    assert (Hlen : (0 < List.length st)%nat) by (subst st; simpl; lia).
    cbn [Dashboard.stats Dashboard.totalStudents Dashboard.totalAttendance
         Dashboard.todayPresent Dashboard.todayAbsent Dashboard.recentActivity
         Dashboard.loading].
    destruct (Z.eqb_spec (Z.of_nat (List.length st)) 0) as [E|E]; [lia|].
    repeat split; intros; try lia. subst st. discriminate.
Qed.

(** X23. The recent activity of the dashboard is the five newest
    attendance rows, newest first (all the rows when there are fewer
    than five): together with the rows left out it is the whole table,
    and no row left out is newer than a row shown. *)
Theorem recent_activity_is_the_five_newest :
  forall table : list Attendance.row,
    List.length (Dashboard.recent table) = Nat.min 5 (List.length table)
    /\ newestFirst (Dashboard.recent table)
    /\ exists rest : list Attendance.row,
         Permutation (Dashboard.recent table ++ rest) table
         /\ forall r r', In r (Dashboard.recent table) -> In r' rest ->
                         (Attendance.created_at r' <= Attendance.created_at r)%Z.
Proof.
  intros table. unfold Dashboard.recent.
  pose proof (orderDesc_newestFirst table) as N.
  rewrite <- (firstn_skipn 5 (orderDesc table)) in N.
  apply newestFirst_app in N as [N1 N2].
  split; [|split; [exact N1|]].
  - rewrite length_firstn, (Permutation_length (orderDesc_perm table)). reflexivity.
  - exists (skipn 5 (orderDesc table)). split; [|exact N2].
    rewrite firstn_skipn. apply orderDesc_perm.
Qed.

(** * The reports page *)

Lemma status_counts (data : list Reports.Joined) :
  List.length data
  = (List.length (filter Reports.isPresentJ data)
     + List.length (filter Reports.isAbsentJ data))%nat.
Proof.
  induction data as [|j data IH]; simpl; [reflexivity|].
  unfold Reports.isPresentJ at 1, Reports.isAbsentJ at 1, isPresent, isAbsent.
  destruct (Attendance.status (Reports.record j)); simpl; lia.
Qed.

Lemma queryRange_In (roster : list Student.t) (table : list Attendance.row)
    (c : string) (first last : Z) (j : Reports.Joined) :
  In j (Reports.queryRange roster table c first last) ->
  In (Reports.record j) table
  /\ Reports.inRange c first last (Reports.record j) = true
  /\ Reports.students j = Reports.studentOf roster (Attendance.student_id (Reports.record j)).
Proof.
  unfold Reports.queryRange. intros H. apply in_map_iff in H as [r [<- Hr]].
  apply orderDesc_In, filter_In in Hr as [Hr Hw]. simpl. auto.
Qed.

(** X24. A report that loads holds every attendance row of the
    selected course created from the first second of the start date to
    23:59:59 of the end date, and only those; its figures count all of
    them, whatever is typed in the search box, and the total is the
    sum of the present and absent counts.  The list shown after the
    load is the whole list when the search term is blank, and
    otherwise the loaded records whose student's name or id contains
    the term, compared in lower case.  An end date before the start
    date gives an empty report. *)
Theorem report_counts_add_up :
  forall (toLowerCase trim : string -> string) (roster : list Student.t)
         (table : list Attendance.row) (s : Reports.State) (first last : Z),
    Reports.startDate s = Some first ->
    Reports.endDate s = Some last ->
    Reports.selectedCourse s <> "" ->
    Reports.totalRecords
      (Reports.stats (Reports.loaded toLowerCase trim QueryOk roster table s))
    = (Reports.presentCount
         (Reports.stats (Reports.loaded toLowerCase trim QueryOk roster table s))
       + Reports.absentCount
           (Reports.stats (Reports.loaded toLowerCase trim QueryOk roster table s)))%nat
    /\ Reports.totalRecords
         (Reports.stats (Reports.loaded toLowerCase trim QueryOk roster table s))
       = List.length (filter (Reports.inRange (Reports.selectedCourse s) first last) table)
    /\ Reports.attendanceRecords (Reports.loaded toLowerCase trim QueryOk roster table s)
       = Reports.queryRange roster table (Reports.selectedCourse s) first last
    /\ Reports.filteredRecords (Reports.loaded toLowerCase trim QueryOk roster table s)
       = (if trim (Reports.searchTerm s) =? ""
          then Reports.attendanceRecords
                 (Reports.loaded toLowerCase trim QueryOk roster table s)
          else filter (Reports.matches toLowerCase (Reports.searchTerm s))
                 (Reports.attendanceRecords
                    (Reports.loaded toLowerCase trim QueryOk roster table s)))
    /\ (forall j,
          In j (Reports.attendanceRecords
                  (Reports.loaded toLowerCase trim QueryOk roster table s)) ->
          In (Reports.record j) table
          /\ Attendance.course (Reports.record j) = Reports.selectedCourse s
          /\ (startOfDay first <= Attendance.created_at (Reports.record j)
              <= lastSecondOfDay last)%Z)
    /\ ((last < first)%Z ->
        Reports.attendanceRecords (Reports.loaded toLowerCase trim QueryOk roster table s)
        = []).
Proof.
  intros toLowerCase trim roster table s first last Hs He Hc.
  apply String.eqb_neq in Hc.
  assert (L : Reports.loaded toLowerCase trim QueryOk roster table s
              = let data := Reports.queryRange roster table (Reports.selectedCourse s)
                              first last in
                Reports.mkState (Reports.selectedCourse s) (Reports.startDate s)
                  (Reports.endDate s) data
                  (if trim (Reports.searchTerm s) =? "" then data
                   else filter (Reports.matches toLowerCase (Reports.searchTerm s)) data)
                  (Reports.mkStats (List.length data)
                     (List.length (filter Reports.isPresentJ data))
                     (List.length (filter Reports.isAbsentJ data)))
                  false (Reports.searchTerm s)).
  { unfold Reports.loaded, Reports.fetchAttendanceData, Reports.recordsEffect,
      Reports.filterRecords.
    rewrite Hs, He, Hc. simpl.
    destruct (Reports.queryRange roster table (Reports.selectedCourse s) first last)
      as [|j data] eqn:Q; simpl; [|reflexivity].
    now destruct (trim (Reports.searchTerm s) =? ""). }
  rewrite L. simpl.
  split; [apply status_counts|]. split; [|split; [reflexivity|split; [reflexivity|split]]].
  - unfold Reports.queryRange.
    now rewrite length_map, (Permutation_length (orderDesc_perm _)).
  - intros j Hj. apply queryRange_In in Hj as (Hin & Hr & _).
    unfold Reports.inRange in Hr.
    apply andb_prop in Hr as [Hr H3]. apply andb_prop in Hr as [H1 H2].
    apply String.eqb_eq in H1. apply Z.leb_le in H2, H3. auto.
  - intros Hlt. unfold Reports.queryRange.
    rewrite filter_none; [reflexivity|].
    intros r _. unfold Reports.inRange.
    destruct (startOfDay first <=? Attendance.created_at r)%Z eqn:A;
      [|now rewrite andb_false_r].
    destruct (Attendance.created_at r <=? lastSecondOfDay last)%Z eqn:B;
      [|now rewrite andb_false_r].
    apply Z.leb_le in A, B. exfalso.
    unfold startOfDay, lastSecondOfDay, usPerDay, usPerSecond in *. lia.
Qed.

(** X24 on the report of CS101 for day 20000, with [Bo] typed in the
    search box: two records are loaded and counted, Bob's is shown. *)
Lemma report_counts_add_up_witness :
  Reports.totalRecords
    (Reports.stats
       (Reports.loaded (fun x => x) (fun x => x) QueryOk [Sample.alice; Sample.bob]
          (attendance Sample.closedOnce)
          (Reports.mkState "CS101" (Some 20000%Z) (Some 20000%Z) [] []
             (Reports.mkStats 0 0 0) false "Bo")))
  = List.length
      (filter (Reports.inRange "CS101" 20000 20000) (attendance Sample.closedOnce)).
Proof.
  destruct (report_counts_add_up (fun x => x) (fun x => x) [Sample.alice; Sample.bob]
              (attendance Sample.closedOnce)
              (Reports.mkState "CS101" (Some 20000%Z) (Some 20000%Z) [] []
                 (Reports.mkStats 0 0 0) false "Bo") 20000%Z 20000%Z)
    as (_ & H & _).
  - reflexivity.
  - reflexivity.
  - discriminate.
  - exact H.
Defined.

(** With [Bo] in the search box the load of two records shows Bob's
    only, and the figures still count both. *)
Example search_term_filters_the_loaded_report :
  map (fun j => Attendance.student_id (Reports.record j))
    (Reports.filteredRecords
       (Reports.loaded (fun x => x) (fun x => x) QueryOk [Sample.alice; Sample.bob]
          (attendance Sample.closedOnce)
          (Reports.mkState "CS101" (Some 20000%Z) (Some 20000%Z) [] []
             (Reports.mkStats 0 0 0) false "Bo")))
  = ["id-bob"]
  /\ Reports.totalRecords
       (Reports.stats
          (Reports.loaded (fun x => x) (fun x => x) QueryOk [Sample.alice; Sample.bob]
             (attendance Sample.closedOnce)
             (Reports.mkState "CS101" (Some 20000%Z) (Some 20000%Z) [] []
                (Reports.mkStats 0 0 0) false "Bo")))
     = 2%nat.
Proof. split; vm_compute; reflexivity. Qed.

Lemma countChar_app (c : ascii) (a b : string) :
  Reports.countChar c (a ++ b)%string
  = (Reports.countChar c a + Reports.countChar c b)%nat.
Proof.
  induction a as [|x a IH]; simpl; [reflexivity|]. rewrite IH. lia.
Qed.

Lemma countChar_join (c : ascii) (l : list string) :
  l <> [] ->
  Reports.countChar c (Reports.join (String c "") l)
  = (List.length l - 1 + list_sum (map (Reports.countChar c) l))%nat.
Proof.
  induction l as [|x l IH]; [congruence|]. intros _.
  destruct l as [|y l]; [simpl; lia|].
  change (Reports.join (String c "") (x :: y :: l))
    with (x ++ String c "" ++ Reports.join (String c "") (y :: l))%string.
  rewrite !countChar_app, IH by discriminate.
  simpl. rewrite Ascii.eqb_refl. lia.
Qed.

(** X25. The export writes one header line and one line per record
    shown, and nothing at all when no record is shown.  A line joins
    its five fields with commas and quotes nothing: it holds four
    commas plus every comma of the date, the time, the student id and
    the student's name, so it has the header's five columns exactly
    when none of those holds a comma. *)
Theorem csv_line_has_four_commas_plus_those_of_its_fields :
  forall (toDate toTime : Z -> string) (s : Reports.State) (j : Reports.Joined),
    (Reports.exportToCSV toDate toTime s = None <-> Reports.filteredRecords s = [])
    /\ List.length (Reports.csvLines toDate toTime (Reports.filteredRecords s))
       = S (List.length (Reports.filteredRecords s))
    /\ Reports.countChar "," (Reports.join "," Reports.headers) = 4%nat
    /\ Reports.countChar "," (Reports.join "," (Reports.csvRow toDate toTime j))
       = (4 + list_sum (map (Reports.countChar ",") (Reports.csvRow toDate toTime j)))%nat
    /\ (Reports.countChar "," (Reports.join "," (Reports.csvRow toDate toTime j)) = 4%nat
        <-> forall field, In field (Reports.csvRow toDate toTime j) ->
                          Reports.countChar "," field = 0%nat).
Proof.
  intros toDate toTime s j.
  assert (R : Reports.countChar "," (Reports.join "," (Reports.csvRow toDate toTime j))
              = (4 + list_sum (map (Reports.countChar ",")
                                 (Reports.csvRow toDate toTime j)))%nat).
  { rewrite (countChar_join "," (Reports.csvRow toDate toTime j)) by discriminate.
    reflexivity. }
  split; [|split; [|split; [reflexivity|split; [exact R|]]]].
  - unfold Reports.exportToCSV. destruct (Reports.filteredRecords s); split;
      intros; congruence.
  - unfold Reports.csvLines. simpl. now rewrite length_map.
  - rewrite R. clear R.
    induction (Reports.csvRow toDate toTime j) as [|f fs IH]; simpl.
    + split; [intros _ f [] | reflexivity].
    + split.
      * intros H f' [<- | Hin]; [lia|]. apply IH; [lia | exact Hin].
      * intros H. rewrite (H f (or_introl eq_refl)).
        assert (E : list_sum (map (Reports.countChar ",") fs) = 0%nat).
        { assert (IH' : (4 + list_sum (map (Reports.countChar ",") fs))%nat = 4%nat).
          { apply IH. intros f' Hf'. apply H. now right. }
          lia. }
        lia.
Qed.

(** A student's name with a comma gives a line of six columns. *)
Example comma_in_a_name_adds_a_column :
  Reports.countChar ","
    (Reports.join ","
       (Reports.csvRow (fun _ => "10/4/2024") (fun _ => "12:00:00 PM")
          (Reports.mkJoined (Attendance.mk "id-7" "CS101" present Sample.noon)
             (Some ("Doe, Jane", "S007")))))
  = 5%nat.
Proof. reflexivity. Qed.

(** * Recognition around the other handlers *)

(** One sampling tick, run to its insert, for a callback that has not
    seen the student it detects. *)
Lemma tick_inserts (w : World) (h : nat) (c : Closure) (s : string) :
  lookupTimer h (timers w) = Some c ->
  mounted w = true ->
  ticks w = [] ->
  s <> "unknown" ->
  ~ In s (c_recognizedStudents c) ->
  attendance (run [TimerFire h true; DetectDone 0 (Some [s]); InsertDone 0 Inserted] w)
  = attendance w ++ [Attendance.mk s (c_course c) present (clock w)].
Proof.
  intros L M T Hu Hs.
  apply String.eqb_neq in Hu. apply includes_false in Hs.
  destruct w as [u a ck m so ir ts nh tk f cs]. simpl in *. subst.
  unfold run. simpl. unfold timerFired. simpl. rewrite L. simpl.
  unfold detectResolved. simpl. rewrite Hu, Hs. simpl.
  unfold insertResolved. simpl. reflexivity.
Qed.

Lemma markAbsentStudents_keeps (r : InsertOutcome) (w : World) :
  timers (markAbsentStudents r w) = timers w
  /\ ticks (markAbsentStudents r w) = ticks w
  /\ mounted (markAbsentStudents r w) = mounted w
  /\ clock (markAbsentStudents r w) = clock w
  /\ intervalRef (markAbsentStudents r w) = intervalRef w
  /\ isCapturing (ui (markAbsentStudents r w)) = isCapturing (ui w).
Proof.
  unfold markAbsentStudents.
  destruct (List.length (absentStudentIds (ui w)) =? 0)%nat; [repeat split|].
  destruct r; repeat split.
Qed.

(** X26. Completing attendance does not stop recognition: the timer
    stays registered and the page stays capturing.  A roster member
    marked absent by the completion and seen in a later tick of the
    running session gets a present row as well, after her absent
    row. *)
Theorem absent_student_can_still_be_marked_present :
  forall (w : World) (h : nat) (c : Closure) (student : Student.t),
    lookupTimer h (timers w) = Some c ->
    mounted w = true ->
    ticks w = [] ->
    In student (students (ui w)) ->
    includes (recognizedStudents (ui w)) (Student.id student) = false ->
    Student.id student <> "unknown" ->
    ~ In (Student.id student) (c_recognizedStudents c) ->
    timers (markAbsentStudents Inserted w) = timers w
    /\ isCapturing (ui (markAbsentStudents Inserted w)) = isCapturing (ui w)
    /\ In (Attendance.mk (Student.id student) (course (ui w)) absent (clock w))
         (absentRecords (ui w) (clock w))
    /\ attendance
         (run [TimerFire h true; DetectDone 0 (Some [Student.id student]);
               InsertDone 0 Inserted]
            (markAbsentStudents Inserted w))
       = attendance w ++ absentRecords (ui w) (clock w)
           ++ [Attendance.mk (Student.id student) (c_course c) present (clock w)].
Proof.
  intros w h c student L M T Hin Hr Hu Hs.
  destruct (markAbsentStudents_keeps Inserted w) as (Kt & Kk & Km & Kc & _ & Ki).
  split; [exact Kt|]. split; [exact Ki|]. split.
  - unfold absentRecords, absentStudentIds.
    apply in_map_iff. exists (Student.id student). split; [reflexivity|].
    apply in_map_iff. exists student. split; [reflexivity|].
    apply filter_In. split; [exact Hin | now rewrite Hr].
  - rewrite (tick_inserts _ h c (Student.id student)); try assumption;
      try congruence.
    now rewrite markAbsentStudents_attendance, Kc, <- app_assoc.
Qed.

(** X26 on the classroom: attendance is completed at once, Bob is
    marked absent, then seen. *)
Lemma absent_student_can_still_be_marked_present_witness :
  map Attendance.status
    (rowsOf "id-bob"
       (attendance
          (run [TimerFire 1 true; DetectDone 0 (Some ["id-bob"]); InsertDone 0 Inserted]
             (markAbsentStudents Inserted Sample.recognising))))
  = [absent; present].
Proof.
  destruct (absent_student_can_still_be_marked_present Sample.recognising 1
              (mkClosure [] "CS101" [Sample.alice; Sample.bob]
                 (validDescriptors Sample.everyFace [Sample.alice; Sample.bob]))
              Sample.bob) as (_ & _ & _ & H).
  - reflexivity.
  - reflexivity.
  - reflexivity.
  - right; left; reflexivity.
  - reflexivity.
  - discriminate.
  - intros [].
  - change (Student.id Sample.bob) with "id-bob" in H. rewrite H. reflexivity.
Defined.

(** X27. Pausing and resuming repairs the deduplication for the
    students recognized so far: when the only registered timer is the
    one the page refers to and no run is in flight, a pause followed
    by a start leaves callbacks that never insert a student who is in
    the recognized set at that moment, whatever is detected
    afterwards. *)
Theorem resume_stops_reinserting_recognized_students :
  forall (w : World) (h : nat) (c : Closure) (s : string)
         (photo : Student.t -> PhotoOutcome) (evs : list Event),
    intervalRef w = Some h ->
    timers w = [(h, c)] ->
    ticks w = [] ->
    In s (recognizedStudents (ui w)) ->
    rowsOf s (attendance
                (run evs (startFaceRecognition photo (stopFaceRecognition w))))
    = rowsOf s (attendance w).
Proof.
  intros w h c s photo evs Hi Ht Hk Hs.
  assert (P : timers (stopFaceRecognition w) = []
              /\ ticks (stopFaceRecognition w) = []
              /\ recognizedStudents (ui (stopFaceRecognition w)) = recognizedStudents (ui w)
              /\ attendance (stopFaceRecognition w) = attendance w).
  { unfold stopFaceRecognition, clearInterval. rewrite Hi. simpl. rewrite Ht. simpl.
    rewrite Nat.eqb_refl. simpl. auto. }
  destruct P as (P1 & P2 & P3 & P4).
  destruct (startFaceRecognition_shields s photo _ P1 P2) as [Sh A];
    [now rewrite P3|].
  destruct (run_shields s evs _ Sh) as [_ E]. now rewrite E, A, P4.
Qed.

(** X27 on the classroom after Alice was recognized once: after a
    pause and a resume, two more ticks with Alice add nothing. *)
Lemma resume_stops_reinserting_recognized_students_witness :
  List.length
    (rowsOf "id-alice"
       (attendance
          (run (Sample.aliceTick ++ Sample.aliceTick)
             (startFaceRecognition Sample.everyFace
                (stopFaceRecognition Sample.afterAlice)))))
  = 1%nat.
Proof.
  rewrite (resume_stops_reinserting_recognized_students Sample.afterAlice 1
             (mkClosure [] "CS101" [Sample.alice; Sample.bob]
                (validDescriptors Sample.everyFace [Sample.alice; Sample.bob]))
             "id-alice" Sample.everyFace (Sample.aliceTick ++ Sample.aliceTick)).
  - reflexivity.
  - reflexivity.
  - reflexivity.
  - reflexivity.
  - left. reflexivity.
Defined.

Lemma selectCourse_keeps (courseName : string) (roster : StudentsOutcome) (w : World) :
  timers (selectCourse courseName roster w) = timers w
  /\ ticks (selectCourse courseName roster w) = ticks w
  /\ mounted (selectCourse courseName roster w) = mounted w
  /\ clock (selectCourse courseName roster w) = clock w
  /\ attendance (selectCourse courseName roster w) = attendance w
  /\ isCapturing (ui (selectCourse courseName roster w)) = isCapturing (ui w)
  /\ course (ui (selectCourse courseName roster w)) = courseName.
Proof.
  unfold selectCourse. destruct (courseName =? ""); [repeat split|].
  destruct roster; repeat split.
Qed.

(** X28. Selecting another course while recognition runs neither
    stops nor retargets it: the timer stays registered, the page stays
    capturing, and a student then detected is inserted as present for
    the course that was selected when recognition started, while the
    page shows the new course. *)
Theorem course_switch_does_not_retarget_recognition :
  forall (w : World) (h : nat) (c : Closure) (s courseName : string)
         (roster : StudentsOutcome),
    lookupTimer h (timers w) = Some c ->
    mounted w = true ->
    ticks w = [] ->
    s <> "unknown" ->
    ~ In s (c_recognizedStudents c) ->
    timers (selectCourse courseName roster w) = timers w
    /\ isCapturing (ui (selectCourse courseName roster w)) = isCapturing (ui w)
    /\ course (ui (selectCourse courseName roster w)) = courseName
    /\ attendance
         (run [TimerFire h true; DetectDone 0 (Some [s]); InsertDone 0 Inserted]
            (selectCourse courseName roster w))
       = attendance w ++ [Attendance.mk s (c_course c) present (clock w)].
Proof.
  intros w h c s courseName roster L M T Hu Hs.
  destruct (selectCourse_keeps courseName roster w) as (Kt & Kk & Km & Kc & Ka & Ki & Ko).
  split; [exact Kt|]. split; [exact Ki|]. split; [exact Ko|].
  rewrite (tick_inserts _ h c s); try assumption; congruence.
Qed.

(** X28 on the classroom: MA201 is selected during the session, Bob
    is seen and inserted for CS101. *)
Lemma course_switch_does_not_retarget_recognition_witness :
  map Attendance.course
    (attendance
       (run [TimerFire 1 true; DetectDone 0 (Some ["id-bob"]); InsertDone 0 Inserted]
          (selectCourse "MA201" (StudentsOk []) Sample.recognising)))
  = ["CS101"].
Proof.
  destruct (course_switch_does_not_retarget_recognition Sample.recognising 1
              (mkClosure [] "CS101" [Sample.alice; Sample.bob]
                 (validDescriptors Sample.everyFace [Sample.alice; Sample.bob]))
              "id-bob" "MA201" (StudentsOk [])) as (_ & _ & _ & H).
  - reflexivity.
  - reflexivity.
  - reflexivity.
  - discriminate.
  - intros [].
  - rewrite H. reflexivity.
Defined.
